(** * GarchModel: the model lifecycle manager of [model.py]

    A shallow embedding of the class [GarchModel] (wrangle_data, fit,
    __clean_prediction, predict_volatility, dump, load) together with the
    parts of pandas, glob and os.path it calls.

    Conventions of the embedding.
    - A pandas [Timestamp] of the price index is a calendar day, counted in
      days since 1970-01-01 (the index of the price table holds dates).
    - Prices, returns and forecasts are binary64 numbers: Rocq's primitive
      floats, whose operations are those of IEEE 754 (NaN and the
      infinities included).
    - The estimator ([arch_model(...).fit]), the market-data client and the
      SQL repository are collaborators outside [model.py]: they are section
      parameters.
    - The world holds the files of one directory, the configured model
      directory of the objects that run in it, without subdirectories.
    - An instance attribute that has not been assigned is [None]; reading it
      raises [AttributeError]. *)

From Stdlib Require Import ZArith List Lia String Ascii Bool.
From Stdlib Require Import Sorted Permutation OrderedTypeEx.
From Stdlib Require Import Floats.
Import ListNotations.

Set Implicit Arguments.

(* ================================================================== *)
(** ** Calendar: days, weekdays, business-day ranges, ISO-8601 text *)
(* ================================================================== *)

Module Calendar.

Local Open Scope Z_scope.

(** A date of the price index, in days since 1970-01-01. *)
Definition Timestamp := Z.

(** Midnights a pandas [Timestamp] (int64 nanoseconds) can hold:
    1677-09-22 .. 2262-04-11. *)
Definition ts_min : Z := -106751.
Definition ts_max : Z := 106751.

Definition in_bounds (d : Timestamp) : bool :=
  (ts_min <=? d) && (d <=? ts_max).

(** [Timestamp.weekday()]: Monday is 0, Sunday is 6; 1970-01-01 was a
    Thursday. *)
Definition weekday (d : Timestamp) : Z := (d + 3) mod 7.

Definition is_business_day (d : Timestamp) : bool := weekday d <? 5.

(** What the offset [B] does to the start of a range: a Saturday or a
    Sunday rolls forward to the next Monday. *)
Definition roll_forward (d : Timestamp) : Timestamp :=
  if weekday d =? 5 then d + 2
  else if weekday d =? 6 then d + 1
  else d.

(** One step of the offset [B] from a business day. *)
Definition next_bday (d : Timestamp) : Timestamp :=
  if weekday d =? 4 then d + 3
  else if weekday d =? 5 then d + 2
  else d + 1.

Fixpoint bdays_from (d : Timestamp) (n : nat) : list Timestamp :=
  match n with
  | O => []
  | S k => d :: bdays_from (next_bday d) k
  end.

(** [pd.bdate_range(start=start, periods=periods)]: [periods] consecutive
    Monday-to-Friday days, the first one being [start] or the first
    business day after it. *)
Definition bdate_range (start : Timestamp) (periods : nat) : list Timestamp :=
  bdays_from (roll_forward start) periods.

(** Day [doe] (0 .. 146096) of the 400-year era [era], eras starting on
    0000-03-01, to (year, month, day). *)
Definition civil_of_era (era doe : Z) : Z * Z * Z :=
  let yoe := (doe - doe / 1460 + doe / 36524 - doe / 146096) / 365 in
  let y := yoe + era * 400 in
  let doy := doe - (365 * yoe + yoe / 4 - yoe / 100) in
  let mp := (5 * doy + 2) / 153 in
  let d := doy - (153 * mp + 2) / 5 + 1 in
  let m := if mp <? 10 then mp + 3 else mp - 9 in
  (if m <=? 2 then y + 1 else y, m, d).

(** Days since 1970-01-01 to (year, month, day) of the proleptic Gregorian
    calendar. *)
Definition civil_from_days (z0 : Z) : Z * Z * Z :=
  let z := z0 + 719468 in
  let era := z / 146097 in
  civil_of_era era (z - era * 146097).

(** The inverse direction; only the proofs use it. *)
Definition days_from_civil (ymd : Z * Z * Z) : Z :=
  let '(y0, m, d) := ymd in
  let y := if m <=? 2 then y0 - 1 else y0 in
  let era := y / 400 in
  let yoe := y - era * 400 in
  let mp := if m >? 2 then m - 3 else m + 9 in
  let doy := (153 * mp + 2) / 5 + d - 1 in
  let doe := yoe * 365 + yoe / 4 - yoe / 100 + doy in
  era * 146097 + doe - 719468.

(** The check that day [doe] of era 0 converts back to itself, into a
    month and a day of the month, and into a year of that era; and its
    run over a range of days. *)
Definition era_ok (doe : Z) : bool :=
  let '(y, m, d) := civil_of_era 0 doe in
  (days_from_civil (y, m, d) =? doe - 719468)
  && (1 <=? m) && (m <=? 12) && (1 <=? d) && (d <=? 31)
  && (0 <=? y) && (y <=? 400).

Fixpoint all_from (fuel : nat) (k : Z) (p : Z -> bool) : bool :=
  match fuel with
  | O => true
  | S f => p k && all_from f (k + 1) p
  end.

(** The last decimal digit of [n], as a character. *)
Definition digit (n : Z) : ascii :=
  ascii_of_nat (48 + Z.to_nat (n mod 10)).

(** ["%02d"], ["%04d"] and ["%06d"] on numbers that fit the width. *)
Definition pad2 (n : Z) : string :=
  String (digit (n / 10)) (String (digit n) EmptyString).

Definition pad4 (n : Z) : string :=
  String (digit (n / 1000)) (String (digit (n / 100)) (pad2 n)).

Definition pad6 (n : Z) : string :=
  String (digit (n / 100000)) (String (digit (n / 10000)) (pad4 n)).

(** The calendar-date part, [YYYY-MM-DD]. *)
Definition iso_date (d : Timestamp) : string :=
  let '(y, m, dd) := civil_from_days d in
  (pad4 y ++ "-" ++ pad2 m ++ "-" ++ pad2 dd)%string.

(** A point in time as [pd.Timestamp.now()] returns it, to the
    microsecond. *)
Record datetime : Type := mkDatetime {
  dt_day : Timestamp;
  dt_hour : Z;
  dt_minute : Z;
  dt_second : Z;
  dt_microsecond : Z
}.

Definition midnight (d : Timestamp) : datetime := mkDatetime d 0 0 0 0.

(** [Timestamp.isoformat()]: [YYYY-MM-DDTHH:MM:SS], followed by
    [.ffffff] only when the microsecond is not zero. *)
Definition isoformat_datetime (t : datetime) : string :=
  (iso_date (dt_day t) ++ "T" ++ pad2 (dt_hour t) ++ ":" ++ pad2 (dt_minute t)
     ++ ":" ++ pad2 (dt_second t)
     ++ (if Z.eqb (dt_microsecond t) 0 then "" else "." ++ pad6 (dt_microsecond t)))%string.

(** [d.isoformat()] for an element [d] of a normalized [DatetimeIndex]. *)
Definition isoformat (d : Timestamp) : string := isoformat_datetime (midnight d).

Definition is_digit (c : ascii) : bool :=
  let n := nat_of_ascii c in (48 <=? n)%nat && (n <=? 57)%nat.

(** Recognizer of the ISO-8601 calendar-date representation [YYYY-MM-DD]. *)
Definition is_iso_calendar_date (s : string) : bool :=
  match list_ascii_of_string s with
  | [y1; y2; y3; y4; h1; m1; m2; h2; d1; d2] =>
      forallb is_digit [y1; y2; y3; y4; m1; m2; d1; d2]
      && Ascii.eqb h1 "-" && Ascii.eqb h2 "-"
  | _ => false
  end.

(** Recognizer of the combined representation [YYYY-MM-DDThh:mm:ss]. *)
Definition is_iso_datetime (s : string) : bool :=
  match list_ascii_of_string s with
  | [y1; y2; y3; y4; h1; m1; m2; h2; d1; d2; t; a1; a2; c1; b1; b2; c2; s1; s2] =>
      forallb is_digit [y1; y2; y3; y4; m1; m2; d1; d2; a1; a2; b1; b2; s1; s2]
      && Ascii.eqb h1 "-" && Ascii.eqb h2 "-" && Ascii.eqb t "T"
      && Ascii.eqb c1 ":" && Ascii.eqb c2 ":"
  | _ => false
  end.

End Calendar.

(* ================================================================== *)
(** ** Python built-ins: exceptions, [sorted], [dict], [str.replace] *)
(* ================================================================== *)

Module Py.

(** The exceptions that can leave a method of [GarchModel].  [External]
    stands for whatever a collaborator (API client, repository, estimator,
    joblib) raises. *)
Inductive exn : Type :=
| AttributeError (attr : string)
| IndexError
| ValueError (msg : string)
| OutOfBoundsDatetime
| Exception (msg : string)
| External (what : string).

Inductive result (A : Type) : Type :=
| Ok (a : A)
| Raise (e : exn).

Arguments Ok {A} a.
Arguments Raise {A} e.

Section Sorting.
Variable A : Type.
Variable leb : A -> A -> bool.

(** Insertion in front of the first element that is not smaller: equal
    keys keep their order, as in Python's stable sort. *)
Fixpoint insert (x : A) (l : list A) : list A :=
  match l with
  | [] => [x]
  | y :: t => if leb x y then x :: y :: t else y :: insert x t
  end.

(** [sorted(l)] with the order [leb]. *)
Fixpoint sorted (l : list A) : list A :=
  match l with
  | [] => []
  | x :: t => insert x (sorted t)
  end.

(** [l[-1]]. *)
Definition last_item (l : list A) : result A :=
  match l with
  | [] => Raise IndexError
  | x :: t => Ok (last t x)
  end.
End Sorting.

Section Dict.
Variable V : Type.

(** A [dict] with [str] keys, in insertion order. *)
Definition dict := list (string * V).

(** [d[k] = v]: a key already present keeps its position. *)
Fixpoint dict_set (k : string) (v : V) (d : dict) : dict :=
  match d with
  | [] => [(k, v)]
  | (k', v') :: t =>
      if String.eqb k k' then (k, v) :: t else (k', v') :: dict_set k v t
  end.

(** [dict(items)]. *)
Definition dict_of_items (items : list (string * V)) : dict :=
  fold_left (fun d kv => dict_set (fst kv) (snd kv) d) items [].

Definition keys (d : dict) : list string := map fst d.
Definition values (d : dict) : list V := map snd d.
End Dict.

(** [s.replace(a, b)] for one-character [a] and [b]. *)
Fixpoint replace_char (a b : ascii) (s : string) : string :=
  match s with
  | EmptyString => EmptyString
  | String c t => String (if Ascii.eqb c a then b else c) (replace_char a b t)
  end.

Definition starts_with_dot (s : string) : bool :=
  match s with
  | String c _ => Ascii.eqb c "."
  | EmptyString => false
  end.

(** What [os.path.join(a, _)] puts in front of a relative second
    argument. *)
Definition dir_prefix (a : string) : string :=
  match a with
  | EmptyString => EmptyString
  | _ =>
      if Ascii.eqb (last (list_ascii_of_string a) "/"%char) "/"
      then a else (a ++ "/")%string
  end.

(** [os.path.join(a, b)] on POSIX. *)
Definition os_path_join (a b : string) : string :=
  match b with
  | String "/" _ => b
  | _ => (dir_prefix a ++ b)%string
  end.

(** [fnmatch.fnmatchcase(name, pat)] for patterns made of ordinary
    characters, [*] and [?].  Bracket expressions are not modelled; the
    statements about [load] are for the tickers of [plain_ticker]. *)
Fixpoint fnmatch (pat name : list ascii) : bool :=
  match pat with
  | [] => match name with [] => true | _ => false end
  | c :: p =>
      if Ascii.eqb c "*" then
        (fix star (n : list ascii) : bool :=
           fnmatch p n || match n with [] => false | _ :: n' => star n' end) name
      else
        match name with
        | [] => false
        | c' :: n => (Ascii.eqb c "?" || Ascii.eqb c c') && fnmatch p n
        end
  end.

(** [glob(os.path.join(dir, pat))] over the listing [names] of the
    directory [dir], for a [dir] of [plain_directory] (magic characters in
    the directory part are not modelled): the names that match [pat],
    hidden files left out because [pat] does not start with a dot, each
    joined back to [dir].  The order is that of the directory listing. *)
Definition glob_match (pat name : string) : bool :=
  negb (starts_with_dot name)
  && fnmatch (list_ascii_of_string pat) (list_ascii_of_string name).

Definition glob (dir pat : string) (names : list string) : list string :=
  map (append (dir_prefix dir)) (filter (glob_match pat) names).

Definition has_slash (s : string) : bool :=
  existsb (fun c => Ascii.eqb c "/") (list_ascii_of_string s).

(** A directory path without the magic characters of [glob]. *)
Definition plain_directory (dir : string) : bool :=
  forallb (fun c => negb (Ascii.eqb c "*" || Ascii.eqb c "?" || Ascii.eqb c "["))
          (list_ascii_of_string dir).

(** [s.endswith(suffix)]. *)
Definition ends_with (s suffix : string) : bool :=
  let n := String.length s in
  let k := String.length suffix in
  (k <=? n)%nat && String.eqb (substring (n - k) k s) suffix.

(** The file names that [dump] gives to the artifacts of [ticker]. *)
Definition is_artifact_of (ticker name : string) : bool :=
  ends_with name ("_" ++ ticker ++ ".pkl").

(** A ticker symbol that is neither a bracket pattern nor a path. *)
Definition plain_ticker (t : string) : bool :=
  forallb (fun c => negb (Ascii.eqb c "[" || Ascii.eqb c "/"))
          (list_ascii_of_string t).

End Py.

(* ================================================================== *)
(** ** pandas: the price table and the return series *)
(* ================================================================== *)

Module Pandas.

Import Calendar Py.

(** A price: a binary64 number that is finite and greater than zero. *)
Definition is_price (x : float) : bool := ((0 <? x) && (x <? infinity))%float.

(** One row of the stored price table: the index is the date; of the
    columns only [close] is read by [model.py]. *)
Record Row : Type := mkRow { date : Timestamp; close : float }.

Definition DataFrame := list Row.

(** A series indexed by date. *)
Definition Series := list (Timestamp * float).

(** [df.sort_index(ascending=True)]. *)
Definition sort_index (df : DataFrame) : DataFrame :=
  sorted (fun a b => Z.leb (date a) (date b)) df.

(** [cur / prev - 1]. *)
Definition change (prev cur : float) : float := (cur / prev - 1)%float.

Fixpoint pct_change_from (prev : float) (l : list float) : list float :=
  match l with
  | [] => []
  | c :: t => change prev c :: pct_change_from c t
  end.

(** [col.pct_change()]: the first entry has no predecessor and is NaN. *)
Definition pct_change (col : list float) : list float :=
  match col with
  | [] => []
  | c :: t => nan :: pct_change_from c t
  end.

(** [col * 100]. *)
Definition times100 (v : float) : float := (v * 100)%float.

(** The series the proofs compare with: the returns of the rows [rest]
    that follow the row [prev], none dropped. *)
Fixpoint returns_after (prev : Row) (rest : list Row) : Series :=
  match rest with
  | [] => []
  | r :: t => (date r, ((close r / close prev - 1) * 100)%float) :: returns_after r t
  end.

(** [s.dropna()]: NaN is dropped, an infinity is kept. *)
Definition dropna (s : Series) : Series :=
  filter (fun dv => negb (is_nan (snd dv))) s.

(** The frame of floats a forecast holds: one row per index entry. *)
Record Frame : Type := mkFrame {
  f_index : list Timestamp;
  f_columns : nat;
  f_values : list (list float)
}.

(** [frame ** 0.5], cell by cell. *)
Definition frame_sqrt (f : Frame) : Frame :=
  mkFrame (f_index f) (f_columns f) (map (map PrimFloat.sqrt) (f_values f)).

(** [frame.values.flatten()]. *)
Definition flatten (f : Frame) : list float := List.concat (f_values f).

(** [pd.Series(data, index=labels).to_dict()]; the constructor refuses
    data and labels of different lengths. *)
Definition series_to_dict (data : list float) (labels : list string)
  : result (dict float) :=
  if Nat.eqb (List.length data) (List.length labels)
  then Ok (dict_of_items (combine labels data))
  else Raise (ValueError "Length of values does not match length of index").

End Pandas.

(* ================================================================== *)
(** ** The class [GarchModel] *)
(* ================================================================== *)

Module Garch.

Import Calendar Py Pandas.

Local Open Scope Z_scope.

(** *** Statements that may raise and that update the object and the world *)

Definition M (S A : Type) : Type := S -> result A * S.

Definition ret {S A : Type} (a : A) : M S A := fun s => (Ok a, s).

Definition raise {S A : Type} (e : exn) : M S A := fun s => (Raise e, s).

Definition bind {S A B : Type} (c : M S A) (k : A -> M S B) : M S B :=
  fun s =>
    match c s with
    | (Ok a, s') => k a s'
    | (Raise e, s') => (Raise e, s')
    end.

(** The outcome of a call that touches no state. *)
Definition lift {S A : Type} (r : result A) : M S A := fun s => (r, s).

Definition get {S : Type} : M S S := fun s => (Ok s, s).

Definition modify {S : Type} (f : S -> S) : M S unit := fun s => (Ok tt, f s).

(** [try: c  except IndexError: handler]. *)
Definition try_except_IndexError {S A : Type} (c handler : M S A) : M S A :=
  fun s =>
    match c s with
    | (Raise IndexError, s') => handler s'
    | other => other
    end.

Notation "x <- c ;; k" := (bind c (fun x => k))
  (at level 61, c at next level, right associativity).
Notation "c ;;; k" := (bind c (fun _ => k))
  (at level 61, right associativity).

(** *** The fitted estimator *)

(** What an [ARCHModelResult] shows to [model.py]: the two information
    criteria, the last date of the series it was fitted to, and the
    forecast variance of step 1, 2, ... after that date. *)
Record ARCHModelResult : Type := mkResult {
  res_aic : float;
  res_bic : float;
  res_last_obs : Timestamp;
  res_variance : nat -> float
}.

(** [m.forecast(horizon=h, reindex=False).variance]: one row, labelled by
    the last observation, with the columns [h.1 .. h.h]; a horizon below 1
    is refused. *)
Definition forecast_variance (m : ARCHModelResult) (horizon : Z) : result Frame :=
  if (horizon <? 1)%Z then Raise (ValueError "horizon must be an integer >= 1.")
  else
    let h := Z.to_nat horizon in
    Ok (mkFrame [res_last_obs m] h [map (res_variance m) (seq 1%nat h)]).

(** The dates [predict_volatility] labels a forecast of [horizon] steps
    with, and the values it returns for them. *)
Definition forecast_dates (m : ARCHModelResult) (horizon : Z) : list Timestamp :=
  bdate_range (res_last_obs m + 1) (Z.to_nat horizon).

Definition forecast_values (m : ARCHModelResult) (horizon : Z) : list float :=
  map (fun k => PrimFloat.sqrt (PrimFloat.sqrt (res_variance m k)))
      (seq 1%nat (Z.to_nat horizon)).

(** *** The object *)

Record GarchModel : Type := mkGarchModel {
  ticker : string;
  use_new_data : bool;
  model_directory : string;
  data : option Series;
  model : option ARCHModelResult;
  aic : option float;
  bic : option float
}.

Definition set_data (d : Series) (g : GarchModel) : GarchModel :=
  mkGarchModel (ticker g) (use_new_data g) (model_directory g)
               (Some d) (model g) (aic g) (bic g).

Definition set_model (m : ARCHModelResult) (g : GarchModel) : GarchModel :=
  mkGarchModel (ticker g) (use_new_data g) (model_directory g)
               (data g) (Some m) (aic g) (bic g).

Definition set_aic (x : float) (g : GarchModel) : GarchModel :=
  mkGarchModel (ticker g) (use_new_data g) (model_directory g)
               (data g) (model g) (Some x) (bic g).

Definition set_bic (x : float) (g : GarchModel) : GarchModel :=
  mkGarchModel (ticker g) (use_new_data g) (model_directory g)
               (data g) (model g) (aic g) (Some x).

(** Reading an attribute that was never assigned. *)
Definition getattr {S A : Type} (name : string) (a : option A) : M S A :=
  match a with
  | Some x => ret x
  | None => raise (AttributeError ("'GarchModel' object has no attribute '" ++ name ++ "'")%string)
  end.

(** The exception for a [model] attribute that was never assigned. *)
Definition no_model_error : exn :=
  AttributeError "'GarchModel' object has no attribute 'model'".

(** The name [dump] gives to the artifact written at [now]. *)
Definition artifact_name (g : GarchModel) (now : datetime) : string :=
  (replace_char ":" "-" (isoformat_datetime now) ++ "_" ++ ticker g ++ ".pkl")%string.

(** *** [__clean_prediction] *)

(** [ts + pd.DateOffset(days=n)], refused outside the range of
    [Timestamp]. *)
Definition add_days (d : Timestamp) (n : Z) : result Timestamp :=
  if in_bounds (d + n) then Ok (d + n)%Z else Raise OutOfBoundsDatetime.

(** [pd.bdate_range(start=start, periods=periods)], refused when the
    range leaves [Timestamp]. *)
Definition bdate_range_checked (start : Timestamp) (periods : nat)
  : result (list Timestamp) :=
  let r := bdate_range start periods in
  if forallb in_bounds r then Ok r else Raise OutOfBoundsDatetime.

Definition __clean_prediction {S : Type} (prediction : Frame) : M S (dict float) :=
  (* Calculate forecast start date *)
  first <- lift (match f_index prediction with
                 | [] => Raise IndexError
                 | d :: _ => Ok d
                 end) ;;
  start <- lift (add_days first 1) ;;
  (* Create date range *)
  prediction_dates <- lift (bdate_range_checked start (f_columns prediction)) ;;
  (* Create prediction index labels, ISO 8601 format *)
  let prediction_index := map isoformat prediction_dates in
  (* Extract predictions from DataFrame, get square root *)
  let data := map PrimFloat.sqrt (flatten prediction) in
  (* Combine data and prediction_index into Series, return it as dictionary *)
  lift (series_to_dict data prediction_index).

Section Session.

(** The collaborators of [model.py]: the AlphaVantage client, the SQL
    repository, the estimator of [arch], joblib's serialization, and the
    configured directory. *)
Variable Repo : Type.
Variable get_daily : string -> result DataFrame.
Variable insert_table : Repo -> string -> DataFrame -> result Repo.
Variable read_table : Repo -> string -> Z -> result DataFrame.
Variable arch_model_fit : Series -> Z -> Z -> result ARCHModelResult.
Variable Blob : Type.
Variable joblib_dump : ARCHModelResult -> Blob.
Variable joblib_load : Blob -> option ARCHModelResult.
Variable settings_model_directory : string.

(** What lives outside the object: the repository behind [self.repo]
    and the files of the model directory of the object, by name. *)
Record World : Type := mkWorld {
  repo : Repo;
  files : dict Blob
}.

Definition State : Type := (GarchModel * World)%type.

Definition self : M State GarchModel := fun s => (Ok (fst s), s).

Definition setattr (f : GarchModel -> GarchModel) : M State unit :=
  modify (fun s : State => (f (fst s), snd s)).

Definition __init__ (ticker : string) (use_new_data : bool) : GarchModel :=
  mkGarchModel ticker use_new_data settings_model_directory None None None None.

(** The world after the first block of [wrangle_data]: the table
    replaced by fresh rows when [use_new_data] is set, the same world
    otherwise. *)
Definition refreshed (g : GarchModel) (w w' : World) : Prop :=
  if use_new_data g then
    exists new_data r,
      get_daily (ticker g) = Ok new_data
      /\ insert_table (repo w) (ticker g) new_data = Ok r
      /\ w' = mkWorld r (files w)
  else w' = w.

(** [self.repo.insert_table(table_name, records, if_exists="replace")]. *)
Definition repo_insert_table (table_name : string) (records : DataFrame)
  : M State unit :=
  fun s =>
    match insert_table (repo (snd s)) table_name records with
    | Ok r => (Ok tt, (fst s, mkWorld r (files (snd s))))
    | Raise e => (Raise e, s)
    end.

(** [self.repo.read_table(table_name, limit)]. *)
Definition repo_read_table (table_name : string) (limit : Z)
  : M State DataFrame :=
  fun s => (read_table (repo (snd s)) table_name limit, s).

Definition wrangle_data (n_observations : Z) : M State unit :=
  g <- self ;;
  (* Add new data to database if required *)
  (if use_new_data g then
     new_data <- lift (get_daily (ticker g)) ;;
     repo_insert_table (ticker g) new_data
   else ret tt) ;;;
  (* Pull data from SQL database *)
  df <- repo_read_table (ticker g) (n_observations + 1) ;;
  (* Clean data, attach to class as data attribute *)
  let df := sort_index df in
  let returns := map times100 (pct_change (map close df)) in
  setattr (set_data (dropna (combine (map date df) returns))).

Definition fit (p q : Z) : M State unit :=
  g <- self ;;
  d <- getattr "data" (data g) ;;
  m <- lift (arch_model_fit d p q) ;;
  setattr (set_model m) ;;;
  setattr (set_aic (res_aic m)) ;;;
  setattr (set_bic (res_bic m)).

Definition predict_volatility (horizon : Z) : M State (dict float) :=
  g <- self ;;
  m <- getattr "model" (model g) ;;
  (* Generate variance forecast from self.model *)
  variance <- lift (forecast_variance m horizon) ;;
  let prediction := frame_sqrt variance in
  (* Format prediction with self.__clean_prediction *)
  __clean_prediction prediction.

(** [joblib.dump(obj, filepath)] for the file [name] of the model
    directory: a file of that name is replaced; a name with a slash points
    into a subdirectory, and the directory has none. *)
Definition write_file (name : string) (b : Blob) : M State unit :=
  if has_slash name then raise (External "FileNotFoundError")
  else modify (fun s : State =>
                 (fst s, mkWorld (repo (snd s)) (dict_set name b (files (snd s))))).

(** The content of the file at [path], a path that [glob] returned for
    the directory [dir]. *)
Definition read_file (dir path : string) : M State Blob :=
  fun s =>
    match find (fun nb => String.eqb (dir_prefix dir ++ fst nb) path)
               (files (snd s)) with
    | Some nb => (Ok (snd nb), s)
    | None => (Raise (External "FileNotFoundError"), s)
    end.

(** [now] is the reading of [pd.Timestamp.now()]. *)
Definition dump (now : datetime) : M State string :=
  g <- self ;;
  (* Create timestamp in ISO format and replace ':' with '-' *)
  let timestamp := replace_char ":" "-" (isoformat_datetime now) in
  (* Create filepath, including self.model_directory *)
  let name := (timestamp ++ "_" ++ ticker g ++ ".pkl")%string in
  let filepath := os_path_join (model_directory g) name in
  (* Save self.model *)
  m <- getattr "model" (model g) ;;
  write_file name (joblib_dump m) ;;;
  ret filepath.

(** The pattern of [load], without the directory. *)
Definition pattern (g : GarchModel) : string :=
  ("*" ++ ticker g ++ ".pkl")%string.

(** The paths that [load] sorts. *)
Definition candidates (g : GarchModel) (w : World) : list string :=
  glob (model_directory g) (pattern g) (keys (files w)).

Definition load : M State unit :=
  g <- self ;;
  s <- get ;;
  (* Try to find path of latest model *)
  model_path <-
    try_except_IndexError
      (lift (last_item (sorted String.leb
               (glob (model_directory g) (pattern g) (keys (files (snd s)))))))
      (raise (Exception ("No model trained for '" ++ ticker g ++ "'")%string)) ;;
  (* Load model and attach to self.model *)
  b <- read_file (model_directory g) model_path ;;
  m <- lift (match joblib_load b with
             | Some m => Ok m
             | None => Raise (External "joblib.load")
             end) ;;
  setattr (set_model m).

End Session.

End Garch.

(* ================================================================== *)
(** ** A small configuration to run the methods on *)
(* ================================================================== *)

Module Demo.

Import Calendar Py Pandas Garch.

Local Open Scope Z_scope.

(** A repository of one table, most recent row first; the client is
    offline; the estimator returns a fixed result; joblib stores the
    object itself. *)
Definition Repo : Type := DataFrame.

Definition get_daily (t : string) : result DataFrame :=
  Raise (External "offline").

Definition insert_table (r : Repo) (t : string) (rows : DataFrame) : result Repo :=
  Ok rows.

Definition read_table (r : Repo) (t : string) (limit : Z) : result DataFrame :=
  Ok (firstn (Z.to_nat limit) r).

(** Fitted on a series that ends on Thursday 2023-01-05; forecasts a
    variance of 16 at every step. *)
Definition zn_model : ARCHModelResult :=
  mkResult 1%float 2%float 19362 (fun _ => 16%float).

Definition amzn_model : ARCHModelResult :=
  mkResult 3%float 4%float 19362 (fun _ => 81%float).

(** An earlier fit of ZN. *)
Definition zn_old_model : ARCHModelResult :=
  mkResult 5%float 6%float 19361 (fun _ => 1%float).

Definition arch_model_fit (s : Series) (p q : Z) : result ARCHModelResult :=
  Ok zn_model.

Definition Blob : Type := ARCHModelResult.

Definition joblib_dump (m : ARCHModelResult) : Blob := m.

Definition joblib_load (b : Blob) : option ARCHModelResult := Some b.

Definition prices : DataFrame :=
  [mkRow 19362 99%float; mkRow 19361 101%float;
   mkRow 19360 100%float; mkRow 19359 98%float].

Definition ascending : DataFrame :=
  [mkRow 19360 100%float; mkRow 19361 101%float; mkRow 19362 99%float].

Definition empty_dir : World Repo Blob := mkWorld prices [].

Definition amzn_only : World Repo Blob :=
  mkWorld prices [("2024-01-01T00-00-00_AMZN.pkl"%string, amzn_model)].

(** The directory after a save for ZN and a later save for AMZN. *)
Definition mixed_dir : World Repo Blob :=
  mkWorld prices [("2023-01-05T12-00-00_ZN.pkl"%string, zn_model);
                  ("2024-01-01T00-00-00_AMZN.pkl"%string, amzn_model)].

(** The directory after a save for ZN at 12:00:00 sharp. *)
Definition sharp_dir : World Repo Blob :=
  mkWorld prices [("2023-01-05T12-00-00_ZN.pkl"%string, zn_old_model)].

Definition in_order : World Repo Blob := mkWorld ascending [].

Definition zn : GarchModel := __init__ "models" "ZN" false.

Definition zn_fitted : GarchModel := set_model zn_model zn.

Definition amzn_fitted : GarchModel :=
  set_model amzn_model (__init__ "models" "AMZN" false).

Definition noon : datetime := mkDatetime 19362 12 0 0 0.

Definition quarter_past_noon : datetime := mkDatetime 19362 12 0 0 250000.

Definition later : datetime := mkDatetime 19800 9 30 15 250000.

End Demo.

(* ================================================================== *)
(** ** Callers: sequences of method calls on one object *)
(* ================================================================== *)

Module Caller.

Import Calendar Py Pandas Garch.

Local Open Scope Z_scope.

(** The content of the file [name] of a directory, if there is one. *)
Definition file_content {V : Type} (name : string) (d : dict V) : option V :=
  option_map snd (find (fun nb => String.eqb (fst nb) name) d).

Definition has_colon (s : string) : bool :=
  existsb (fun c => Ascii.eqb c ":") (list_ascii_of_string s).

(** One call of a public method, with its arguments. *)
Inductive call : Type :=
| Wrangle (n_observations : Z)
| Fit (p q : Z)
| Predict (horizon : Z)
| Dump (now : datetime)
| Load.

Definition is_load (c : call) : bool :=
  match c with Load => true | _ => false end.

Definition is_dump (c : call) : bool :=
  match c with Dump _ => true | _ => false end.

Definition is_wrangle (c : call) : bool :=
  match c with Wrangle _ => true | _ => false end.

(** The attributes [aic] and [bic] are those of the active model, or all
    three are unassigned. *)
Definition metrics_of_model (g : GarchModel) : Prop :=
  match model g with
  | Some m => aic g = Some (res_aic m) /\ bic g = Some (res_bic m)
  | None => aic g = None /\ bic g = None
  end.

Section Calls.

Variable Repo : Type.
Variable get_daily : string -> result DataFrame.
Variable insert_table : Repo -> string -> DataFrame -> result Repo.
Variable read_table : Repo -> string -> Z -> result DataFrame.
Variable arch_model_fit : Series -> Z -> Z -> result ARCHModelResult.
Variable Blob : Type.
Variable joblib_dump : ARCHModelResult -> Blob.
Variable joblib_load : Blob -> option ARCHModelResult.

(** The call, its return value dropped. *)
Definition perform (c : call) : M (State Repo Blob) unit :=
  match c with
  | Wrangle n => wrangle_data get_daily insert_table read_table n
  | Fit p q => fit arch_model_fit p q
  | Predict h => _ <- predict_volatility h ;; ret tt
  | Dump now => _ <- dump joblib_dump now ;; ret tt
  | Load => load joblib_load
  end.

(** The state after the calls [cs], made one after the other by a caller
    that goes on after an exception. *)
Fixpoint after_calls (cs : list call) (s : State Repo Blob) : State Repo Blob :=
  match cs with
  | [] => s
  | c :: t => after_calls t (snd (perform c s))
  end.

End Calls.

End Caller.

(* ================================================================== *)
(** ** More inputs for the small configuration *)
(* ================================================================== *)

Module Scenarios.

Import Calendar Py Pandas Garch Caller Demo.

Local Open Scope Z_scope.

(** A table with two days without a price. *)
Definition gap_prices : DataFrame :=
  [mkRow 19359 100%float; mkRow 19360 0%float; mkRow 19361 0%float;
   mkRow 19362 5%float].

Definition gap_world : World Repo Blob := mkWorld gap_prices [].

(** A table of three rows, most recent first. *)
Definition descending : DataFrame :=
  [mkRow 19362 99%float; mkRow 19361 101%float; mkRow 19360 100%float].

Definition in_reverse : World Repo Blob := mkWorld descending [].

(** A frame of two rows, as a forecast re-indexed to the series would
    be. *)
Definition two_rows : Frame :=
  mkFrame [19361; 19362] 1 [[4%float]; [9%float]].

(** The files of [mixed_dir], listed the other way round. *)
Definition mixed_dir_reversed : World Repo Blob :=
  mkWorld prices [("2024-01-01T00-00-00_AMZN.pkl"%string, amzn_model);
                  ("2023-01-05T12-00-00_ZN.pkl"%string, zn_model)].

(** A caller that fits too early, then wrangles, fits, saves and
    forecasts. *)
Definition calls : list call :=
  [Fit 1 1; Wrangle 2; Fit 1 1; Dump noon; Predict 5].

End Scenarios.

(* ================================================================== *)
(** ** Properties *)
(* ================================================================== *)

Unset Implicit Arguments.

(** *** Business-day ranges *)

Module CalendarFacts.
Import Calendar.
Local Open Scope Z_scope.

Lemma weekday_range (d : Timestamp) : 0 <= weekday d < 7.
Proof. unfold weekday. apply Z.mod_pos_bound. lia. Qed.

Lemma weekday_succ (d : Timestamp) (k : Z) :
  weekday (d + k) = (weekday d + k) mod 7.
Proof.
  unfold weekday. rewrite Zplus_mod_idemp_l. f_equal. lia.
Qed.

Lemma roll_forward_business (d : Timestamp) :
  is_business_day (roll_forward d) = true.
Proof.
  unfold is_business_day, roll_forward.
  pose proof (weekday_range d) as R.
  destruct (weekday d =? 5) eqn:E5; [apply Z.eqb_eq in E5|apply Z.eqb_neq in E5].
  - rewrite weekday_succ, E5. reflexivity.
  - destruct (weekday d =? 6) eqn:E6; [apply Z.eqb_eq in E6|apply Z.eqb_neq in E6].
    + rewrite weekday_succ, E6. reflexivity.
    + apply Z.ltb_lt. lia.
Qed.

Lemma roll_forward_bounds (d : Timestamp) : d <= roll_forward d <= d + 2.
Proof.
  unfold roll_forward.
  destruct (weekday d =? 5); [lia|]. destruct (weekday d =? 6); lia.
Qed.

Lemma next_bday_business (d : Timestamp) :
  is_business_day d = true -> is_business_day (next_bday d) = true.
Proof.
  unfold is_business_day, next_bday. intros B. apply Z.ltb_lt in B.
  pose proof (weekday_range d) as R.
  destruct (weekday d =? 4) eqn:E4; [apply Z.eqb_eq in E4|apply Z.eqb_neq in E4].
  - rewrite weekday_succ, E4. reflexivity.
  - destruct (weekday d =? 5) eqn:E5; [apply Z.eqb_eq in E5; lia|].
    rewrite weekday_succ. apply Z.ltb_lt.
    rewrite Z.mod_small; lia.
Qed.

Lemma next_bday_bounds (d : Timestamp) : d < next_bday d <= d + 3.
Proof.
  unfold next_bday.
  destruct (weekday d =? 4); [lia|]. destruct (weekday d =? 5); lia.
Qed.

Lemma bdays_from_length (n : nat) (d : Timestamp) :
  List.length (bdays_from d n) = n.
Proof. revert d. induction n; intros d; simpl; [reflexivity|]. now rewrite IHn. Qed.

Lemma bdays_from_business (n : nat) (d : Timestamp) :
  is_business_day d = true ->
  Forall (fun x => is_business_day x = true) (bdays_from d n).
Proof.
  revert d. induction n; intros d B; simpl; constructor; [assumption|].
  apply IHn, next_bday_business, B.
Qed.

Lemma bdays_from_range (n : nat) (d : Timestamp) :
  Forall (fun x => d <= x <= d + 3 * (Z.of_nat n - 1)) (bdays_from d n).
Proof.
  revert d. induction n; intros d; [constructor|].
  cbn [bdays_from]. constructor; [lia|].
  pose proof (next_bday_bounds d) as NB.
  eapply Forall_impl; [|apply IHn]. cbn beta. intros x Hx. lia.
Qed.

Lemma bdays_from_increasing (n : nat) (d : Timestamp) :
  StronglySorted Z.lt (bdays_from d n).
Proof.
  revert d. induction n; intros d; cbn [bdays_from]; constructor; [apply IHn|].
  pose proof (next_bday_bounds d) as NB.
  eapply Forall_impl; [|apply (bdays_from_range n (next_bday d))].
  cbn beta. intros x Hx. lia.
Qed.

Lemma bdate_range_length (start : Timestamp) (n : nat) :
  List.length (bdate_range start n) = n.
Proof. apply bdays_from_length. Qed.

Lemma bdate_range_business (start : Timestamp) (n : nat) :
  Forall (fun x => is_business_day x = true) (bdate_range start n).
Proof. apply bdays_from_business, roll_forward_business. Qed.

Lemma bdate_range_increasing (start : Timestamp) (n : nat) :
  StronglySorted Z.lt (bdate_range start n).
Proof. apply bdays_from_increasing. Qed.

Lemma bdate_range_range (start : Timestamp) (n : nat) :
  Forall (fun x => start <= x <= start + 3 * Z.of_nat n - 1) (bdate_range start n).
Proof.
  unfold bdate_range. pose proof (roll_forward_bounds start) as RB.
  eapply Forall_impl; [|apply bdays_from_range]. cbn beta. intros x Hx. lia.
Qed.

End CalendarFacts.

(** *** The calendar conversion *)

Module CivilFacts.
Import Calendar.
Local Open Scope Z_scope.

Lemma all_from_spec (p : Z -> bool) (fuel : nat) (k : Z) :
  all_from fuel k p = true ->
  forall x, k <= x < k + Z.of_nat fuel -> p x = true.
Proof.
  revert k. induction fuel as [|f IH]; intros k H x Hx; [lia|].
  cbn [all_from] in H. apply andb_prop in H. destruct H as [Hk Hr].
  destruct (Z.eq_dec x k) as [->|Hne]; [assumption|].
  apply (IH (k + 1) Hr). lia.
Qed.

Lemma era_checked : all_from (Z.to_nat 146097) 0 era_ok = true.
Proof. vm_cast_no_check (eq_refl true). Qed.

Lemma era_ok_all (doe : Z) : 0 <= doe < 146097 -> era_ok doe = true.
Proof.
  intros H. apply (all_from_spec era_ok (Z.to_nat 146097) 0 era_checked).
  rewrite Z2Nat.id; lia.
Qed.

Lemma civil_of_era_shift (era doe : Z) :
  civil_of_era era doe =
  let '(y, m, d) := civil_of_era 0 doe in (y + era * 400, m, d).
Proof.
  unfold civil_of_era. cbv zeta.
  match goal with |- context [if ?c <=? 2 then _ else _] => destruct (c <=? 2) end;
    f_equal; f_equal; lia.
Qed.

Lemma days_from_civil_era (y m d e : Z) :
  days_from_civil (y + e * 400, m, d) = days_from_civil (y, m, d) + e * 146097.
Proof.
  unfold days_from_civil.
  assert (E : forall a, (a + e * 400) / 400 = a / 400 + e)
    by (intros a; apply Z.div_add; lia).
  destruct (m <=? 2).
  - replace (y + e * 400 - 1) with (y - 1 + e * 400) by lia. rewrite E.
    replace (y - 1 + e * 400 - ((y - 1) / 400 + e) * 400)
      with (y - 1 - (y - 1) / 400 * 400) by lia. lia.
  - rewrite E.
    replace (y + e * 400 - (y / 400 + e) * 400) with (y - y / 400 * 400) by lia. lia.
Qed.

Lemma civil_facts (z : Z) :
  let '(y, m, d) := civil_from_days z in
  days_from_civil (y, m, d) = z /\ 1 <= m <= 12 /\ 1 <= d <= 31
  /\ 400 * ((z + 719468) / 146097) <= y <= 400 * ((z + 719468) / 146097) + 400.
Proof.
  unfold civil_from_days. cbv zeta.
  pose proof (Z.mod_pos_bound (z + 719468) 146097 ltac:(lia)) as B.
  pose proof (Z.div_mod (z + 719468) 146097 ltac:(lia)) as DM.
  remember ((z + 719468) / 146097) as era eqn:Eera.
  remember ((z + 719468) mod 146097) as doe eqn:Edoe.
  replace (z + 719468 - era * 146097) with doe by lia.
  rewrite civil_of_era_shift.
  pose proof (era_ok_all doe B) as OK. unfold era_ok in OK.
  destruct (civil_of_era 0 doe) as [[y m] d].
  repeat (apply andb_prop in OK; destruct OK as [OK ?]).
  rewrite days_from_civil_era.
  apply Z.eqb_eq in OK. rewrite OK.
  repeat match goal with
         | H : (_ <=? _) = true |- _ => apply Z.leb_le in H
         end.
  lia.
Qed.

Lemma civil_from_days_inj (a b : Z) :
  civil_from_days a = civil_from_days b -> a = b.
Proof.
  intros E. pose proof (civil_facts a) as Fa. pose proof (civil_facts b) as Fb.
  rewrite E in Fa. destruct (civil_from_days b) as [[y m] d].
  destruct Fa as [Fa _]. destruct Fb as [Fb _]. congruence.
Qed.

(** Within the range of [Timestamp] the year has four digits. *)
Lemma civil_in_bounds (z : Z) :
  in_bounds z = true ->
  let '(y, m, d) := civil_from_days z in
  1600 <= y <= 2400 /\ 1 <= m <= 12 /\ 1 <= d <= 31.
Proof.
  unfold in_bounds, ts_min, ts_max. intros H.
  apply andb_prop in H. destruct H as [L U].
  apply Z.leb_le in L. apply Z.leb_le in U.
  pose proof (civil_facts z) as F.
  destruct (civil_from_days z) as [[y m] d].
  destruct F as (_ & Fm & Fd & Fy).
  assert (4 <= (z + 719468) / 146097 < 6).
  { split.
    - apply Z.div_le_lower_bound; lia.
    - apply Z.div_lt_upper_bound; lia. }
  lia.
Qed.

End CivilFacts.

(** *** ISO-8601 text of a date *)

Module FormatFacts.
Import Calendar CivilFacts.
Local Open Scope Z_scope.

Lemma digit_code (n : Z) :
  nat_of_ascii (digit n) = (48 + Z.to_nat (n mod 10))%nat.
Proof.
  unfold digit. apply nat_ascii_embedding.
  pose proof (Z.mod_pos_bound n 10 ltac:(lia)). lia.
Qed.

Lemma is_digit_digit (n : Z) : is_digit (digit n) = true.
Proof.
  unfold is_digit. rewrite digit_code.
  pose proof (Z.mod_pos_bound n 10 ltac:(lia)).
  apply andb_true_intro. split; apply Nat.leb_le; lia.
Qed.

Lemma digit_inj (a b : Z) : digit a = digit b -> a mod 10 = b mod 10.
Proof.
  intros E. apply (f_equal nat_of_ascii) in E. rewrite !digit_code in E.
  pose proof (Z.mod_pos_bound a 10 ltac:(lia)).
  pose proof (Z.mod_pos_bound b 10 ltac:(lia)). lia.
Qed.

Lemma two_digits_inj (a b : Z) :
  0 <= a < 100 -> 0 <= b < 100 ->
  (a / 10) mod 10 = (b / 10) mod 10 -> a mod 10 = b mod 10 -> a = b.
Proof. intros Ha Hb H1 H0. Z.to_euclidean_division_equations. lia. Qed.

Lemma four_digits_inj (a b : Z) :
  0 <= a < 10000 -> 0 <= b < 10000 ->
  (a / 1000) mod 10 = (b / 1000) mod 10 ->
  (a / 100) mod 10 = (b / 100) mod 10 ->
  (a / 10) mod 10 = (b / 10) mod 10 -> a mod 10 = b mod 10 -> a = b.
Proof. intros Ha Hb H3 H2 H1 H0. Z.to_euclidean_division_equations. lia. Qed.

(** The text of a date, character by character. *)
Lemma isoformat_chars (d : Timestamp) :
  isoformat d =
  let '(y, m, dd) := civil_from_days d in
  String (digit (y / 1000)) (String (digit (y / 100)) (String (digit (y / 10))
    (String (digit y) (String "-" (String (digit (m / 10)) (String (digit m)
    (String "-" (String (digit (dd / 10)) (String (digit dd)
    "T00:00:00"))))))))).
Proof.
  unfold isoformat, isoformat_datetime, midnight, iso_date.
  cbn [dt_day dt_hour dt_minute dt_second dt_microsecond].
  destruct (civil_from_days d) as [[y m] dd]. reflexivity.
Qed.

Lemma isoformat_date_part (d : Timestamp) :
  isoformat d = (iso_date d ++ "T00:00:00")%string.
Proof.
  rewrite isoformat_chars. unfold iso_date.
  destruct (civil_from_days d) as [[y m] dd]. reflexivity.
Qed.

Lemma isoformat_is_datetime (d : Timestamp) : is_iso_datetime (isoformat d) = true.
Proof.
  rewrite isoformat_chars. destruct (civil_from_days d) as [[y m] dd].
  unfold is_iso_datetime. cbn [list_ascii_of_string forallb].
  rewrite !is_digit_digit. reflexivity.
Qed.

Lemma isoformat_not_calendar_date (d : Timestamp) :
  is_iso_calendar_date (isoformat d) = false.
Proof.
  rewrite isoformat_chars. destruct (civil_from_days d) as [[y m] dd].
  reflexivity.
Qed.

Lemma isoformat_inj (a b : Timestamp) :
  in_bounds a = true -> in_bounds b = true ->
  isoformat a = isoformat b -> a = b.
Proof.
  intros Ba Bb E. apply civil_from_days_inj.
  rewrite !isoformat_chars in E.
  pose proof (civil_in_bounds a Ba) as Fa.
  pose proof (civil_in_bounds b Bb) as Fb.
  destruct (civil_from_days a) as [[ya ma] da].
  destruct (civil_from_days b) as [[yb mb] db].
  injection E as E1 E2 E3 E4 E5 E6 E7 E8.
  apply digit_inj in E1, E2, E3, E4, E5, E6, E7, E8.
  assert (ya = yb) by (apply four_digits_inj; lia).
  assert (ma = mb) by (apply two_digits_inj; lia).
  assert (da = db) by (apply two_digits_inj; lia).
  congruence.
Qed.

Lemma isoformat_NoDup (l : list Timestamp) :
  forallb in_bounds l = true -> StronglySorted Z.lt l ->
  NoDup (map isoformat l).
Proof.
  induction l as [|x t IH]; intros B S; [constructor|].
  cbn [forallb] in B. apply andb_prop in B. destruct B as [Bx Bt].
  inversion S as [|? ? St Hx]; subst.
  cbn [map]. constructor; [|apply IH; assumption].
  intros I. apply in_map_iff in I. destruct I as (y & Ey & Iy).
  rewrite forallb_forall in Bt. rewrite Forall_forall in Hx.
  specialize (Hx y Iy). apply isoformat_inj in Ey; [lia|auto..].
Qed.

End FormatFacts.

(** *** Sorting, dictionaries, file names *)

Module PyFacts.
Import Py.

Section SortingFacts.
Variable A : Type.
Variable leb : A -> A -> bool.

Let le (x y : A) : Prop := leb x y = true.

Lemma insert_perm (x : A) (l : list A) : Permutation (insert leb x l) (x :: l).
Proof.
  induction l as [|y t IH]; cbn [insert]; [reflexivity|].
  destruct (leb x y); [reflexivity|].
  rewrite IH. apply perm_swap.
Qed.

Lemma sorted_perm (l : list A) : Permutation (sorted leb l) l.
Proof.
  induction l as [|x t IH]; cbn [sorted]; [reflexivity|].
  rewrite insert_perm. now constructor.
Qed.

Lemma sorted_In (l : list A) (x : A) : In x (sorted leb l) <-> In x l.
Proof.
  split; apply Permutation_in; [|symmetry]; apply sorted_perm.
Qed.

(** A list that is already in order is left as it is. *)
Lemma sorted_id (l : list A) : Sorted le l -> sorted leb l = l.
Proof.
  induction 1 as [|x t S IH H]; cbn [sorted]; [reflexivity|].
  rewrite IH. destruct H as [|y t' Hxy]; cbn [insert]; [reflexivity|].
  unfold le in Hxy. now rewrite Hxy.
Qed.

Hypothesis leb_total : forall x y, leb x y = true \/ leb y x = true.
Hypothesis leb_trans : forall x y z, leb x y = true -> leb y z = true -> leb x z = true.

Lemma insert_sorted (x : A) (l : list A) :
  StronglySorted le l -> StronglySorted le (insert leb x l).
Proof.
  induction 1 as [|y t S IH H]; cbn [insert].
  - repeat constructor.
  - destruct (leb x y) eqn:E.
    + constructor; [now constructor|].
      constructor; [exact E|].
      eapply Forall_impl; [|exact H]. intros z Hz. exact (leb_trans _ _ _ E Hz).
    + constructor; [exact IH|].
      assert (Hyx : le y x) by (destruct (leb_total x y); [congruence|assumption]).
      rewrite Forall_forall. intros z Hz.
      apply (Permutation_in _ (insert_perm x t)) in Hz.
      destruct Hz as [<-|Hz]; [exact Hyx|].
      rewrite Forall_forall in H. now apply H.
Qed.

Lemma sorted_sorted (l : list A) : StronglySorted le (sorted leb l).
Proof.
  induction l as [|x t IH]; cbn [sorted]; [constructor|].
  now apply insert_sorted.
Qed.

Lemma last_cons (z x : A) (t : list A) : last (z :: t) x = last t z.
Proof.
  revert z x. induction t as [|y t IH]; intros z x; [reflexivity|].
  change (last (z :: y :: t) x) with (last (y :: t) x).
  now rewrite !IH.
Qed.

Lemma last_is_max (x : A) (t : list A) :
  StronglySorted le (x :: t) ->
  forall y, In y (x :: t) -> le y (last t x).
Proof.
  revert x. induction t as [|z t IH]; intros x S y I.
  - destruct I as [<-|[]]. cbn. destruct (leb_total x x); assumption.
  - inversion S as [|? ? St Hx]; subst.
    rewrite last_cons.
    destruct I as [<-|I].
    + inversion Hx as [|? ? Hxz _]; subst.
      eapply leb_trans; [exact Hxz|]. apply IH; [assumption|now left].
    + now apply IH.
Qed.

Lemma last_In (x : A) (t : list A) : In (last t x) (x :: t).
Proof.
  revert x. induction t as [|z t IH]; intros x; [now left|].
  rewrite last_cons. right. apply IH.
Qed.

(** [sorted(l)[-1]] of a list that is not empty is one of its elements,
    and none is greater. *)
Lemma last_item_sorted (l : list A) :
  l <> [] ->
  exists m, last_item (sorted leb l) = Ok m /\ In m l
            /\ forall y, In y l -> leb y m = true.
Proof.
  intros NE. pose proof (sorted_sorted l) as S.
  pose proof (sorted_perm l) as P.
  destruct (sorted leb l) as [|x t] eqn:E.
  - apply Permutation_nil in P. contradiction.
  - exists (last t x). split; [reflexivity|]. split.
    + apply (Permutation_in _ P), last_In.
    + intros y I. apply (@last_is_max x t S).
      apply (Permutation_in _ (Permutation_sym P)), I.
Qed.

Lemma last_item_sorted_nil (l : list A) :
  l = [] -> last_item (sorted leb l) = Raise IndexError.
Proof. intros ->. reflexivity. Qed.
End SortingFacts.

(** The order of [str]. *)
Lemma string_leb_refl (s : string) : String.leb s s = true.
Proof. destruct (String.leb_total s s); assumption. Qed.

Lemma string_leb_trans (a b c : string) :
  String.leb a b = true -> String.leb b c = true -> String.leb a c = true.
Proof.
  unfold String.leb.
  destruct (String.compare a b) eqn:Eab; try discriminate; intros _;
    destruct (String.compare b c) eqn:Ebc; try discriminate; intros _.
  - apply String.compare_eq_iff in Eab, Ebc. subst.
    apply (string_leb_refl c).
  - apply String.compare_eq_iff in Eab. subst. now rewrite Ebc.
  - apply String.compare_eq_iff in Ebc. subst. now rewrite Eab.
  - apply String_as_OT.cmp_lt in Eab, Ebc.
    pose proof (String_as_OT.lt_trans _ _ _ Eab Ebc) as L.
    apply String_as_OT.cmp_lt in L. unfold String_as_OT.cmp in L. now rewrite L.
Qed.

Lemma string_leb_antisym (a b : string) :
  String.leb a b = true -> String.leb b a = true -> a = b.
Proof. apply String.leb_antisym. Qed.

Lemma append_inj_r (p a b : string) : (p ++ a = p ++ b)%string -> a = b.
Proof.
  induction p as [|c p IH]; cbn [append]; intros E; [exact E|].
  injection E as E. exact (IH E).
Qed.

Section DictFacts.
Variable V : Type.

Lemma dict_set_fresh (k : string) (v : V) (d : dict V) :
  ~ In k (keys d) -> dict_set k v d = d ++ [(k, v)].
Proof.
  induction d as [|[k' v'] t IH]; cbn [dict_set keys map fst]; intros N;
    [reflexivity|].
  destruct (String.eqb_spec k k') as [->|Hne].
  - exfalso. apply N. now left.
  - cbn [app]. f_equal. apply IH. intros I. apply N. now right.
Qed.

Lemma dict_of_items_app (items : list (string * V)) (acc : dict V) :
  NoDup (keys acc ++ map fst items) ->
  fold_left (fun d kv => dict_set (fst kv) (snd kv) d) items acc = acc ++ items.
Proof.
  revert acc. induction items as [|[k v] t IH]; intros acc ND; cbn [fold_left].
  - now rewrite app_nil_r.
  - cbn [fst snd map] in *.
    rewrite dict_set_fresh.
    + rewrite IH.
      * now rewrite <- app_assoc.
      * unfold keys in *. rewrite map_app. cbn [map fst].
        rewrite <- app_assoc. exact ND.
    + apply NoDup_remove_2 in ND. intros I. apply ND. apply in_or_app. now left.
Qed.

(** Distinct keys: the dictionary is the list of items, in their order. *)
Lemma dict_of_items_NoDup (items : list (string * V)) :
  NoDup (map fst items) -> dict_of_items items = items.
Proof. intros ND. unfold dict_of_items. now rewrite dict_of_items_app. Qed.

Lemma In_keys_dict_set (k : string) (v : V) (d : dict V) (x : string) :
  In x (keys (dict_set k v d)) <-> x = k \/ In x (keys d).
Proof.
  induction d as [|[k' v'] t IH]; cbn [dict_set keys map fst In] in *.
  - intuition congruence.
  - destruct (String.eqb_spec k k') as [->|Hne]; cbn [map fst In].
    + intuition congruence.
    + rewrite IH. intuition congruence.
Qed.

(** Reading back the file that was just written. *)
Lemma find_dict_set (pre k : string) (v : V) (d : dict V) :
  find (fun nb => String.eqb (pre ++ fst nb) (pre ++ k)) (dict_set k v d) = Some (k, v).
Proof.
  induction d as [|[k' v'] t IH]; cbn [dict_set find fst].
  - now rewrite String.eqb_refl.
  - destruct (String.eqb_spec k k') as [->|Hne]; cbn [find fst].
    + now rewrite String.eqb_refl.
    + destruct (String.eqb_spec (pre ++ k') (pre ++ k)) as [E|_]; [|exact IH].
      apply append_inj_r in E. congruence.
Qed.
End DictFacts.

Lemma fnmatch_star_here (p n : list ascii) :
  fnmatch p n = true -> fnmatch ("*"%char :: p) n = true.
Proof.
  intros H. cbn [fnmatch]. rewrite Ascii.eqb_refl.
  destruct n; rewrite H; reflexivity.
Qed.

Lemma fnmatch_star_skip (p n : list ascii) (c : ascii) :
  fnmatch ("*"%char :: p) n = true -> fnmatch ("*"%char :: p) (c :: n) = true.
Proof.
  cbn [fnmatch]. rewrite Ascii.eqb_refl. intros H. rewrite H. apply orb_true_r.
Qed.

(** A name matches itself, whatever [*] and [?] it holds. *)
Lemma fnmatch_self (s : list ascii) : fnmatch s s = true.
Proof.
  induction s as [|c s IH]; [reflexivity|].
  destruct (Ascii.eqb c "*") eqn:E.
  - apply Ascii.eqb_eq in E. subst c.
    apply fnmatch_star_skip, fnmatch_star_here, IH.
  - cbn [fnmatch]. rewrite E, Ascii.eqb_refl, orb_true_r, IH. reflexivity.
Qed.

Lemma fnmatch_star_suffix (s pre : list ascii) :
  fnmatch ("*"%char :: s) (pre ++ s) = true.
Proof.
  induction pre as [|c pre IH]; cbn [app].
  - apply fnmatch_star_here, fnmatch_self.
  - apply fnmatch_star_skip, IH.
Qed.

Lemma In_glob (dir pat : string) (names : list string) (p : string) :
  In p (glob dir pat names) <->
  exists n, p = (dir_prefix dir ++ n)%string /\ In n names /\ glob_match pat n = true.
Proof.
  unfold glob. rewrite in_map_iff. split.
  - intros (n & <- & I). apply filter_In in I. now exists n.
  - intros (n & -> & I & G). exists n. split; [reflexivity|]. now apply filter_In.
Qed.

Lemma list_ascii_of_string_app (a b : string) :
  list_ascii_of_string (a ++ b) = list_ascii_of_string a ++ list_ascii_of_string b.
Proof. induction a as [|c a IH]; cbn; [reflexivity|]. now rewrite IH. Qed.

(** The name that [dump] gives to an artifact matches the pattern of
    [load] for the same ticker. *)
Lemma artifact_matches (prefix t : string) :
  starts_with_dot prefix = false ->
  glob_match ("*" ++ t ++ ".pkl") (prefix ++ "_" ++ t ++ ".pkl") = true.
Proof.
  intros H. unfold glob_match. apply andb_true_intro. split.
  - destruct prefix as [|c p]; [reflexivity|]. cbn in *. now rewrite H.
  - change ("*" ++ t ++ ".pkl")%string with (String "*" (t ++ ".pkl")).
    cbn [list_ascii_of_string].
    replace (prefix ++ "_" ++ t ++ ".pkl")%string
      with ((prefix ++ "_") ++ (t ++ ".pkl"))%string.
    + rewrite (list_ascii_of_string_app (prefix ++ "_")). apply fnmatch_star_suffix.
    + clear H. induction prefix as [|c p IH]; cbn; [reflexivity|]. now rewrite IH.
Qed.

End PyFacts.

(** *** Binary64 arithmetic on prices *)

Module FloatFacts.

Import Pandas.

Local Open Scope float_scope.

Section Rounding.
Variables prec emax : Z.

Lemma shr_1_nonneg (r : shr_record) : (0 <= shr_m r -> 0 <= shr_m (shr_1 r))%Z.
Proof.
  destruct r as [m b s]. cbn [shr_m]. intros H.
  destruct m as [|p|p]; [cbn; lia| |lia].
  destruct p; cbn; lia.
Qed.

Lemma iter_shr_1_nonneg (p : positive) (r : shr_record) :
  (0 <= shr_m r -> 0 <= shr_m (iter_pos shr_1 p r))%Z.
Proof.
  revert r. induction p as [p IH|p IH|]; intros r H; cbn [iter_pos].
  - apply IH, IH, shr_1_nonneg, H.
  - apply IH, IH, H.
  - apply shr_1_nonneg, H.
Qed.

Lemma shr_record_of_loc_m (m : Z) (l : location) : shr_m (shr_record_of_loc m l) = m.
Proof. destruct l as [|[]]; reflexivity. Qed.

Lemma shr_fexp_nonneg (m e : Z) (l : location) :
  (0 <= m -> 0 <= shr_m (fst (shr_fexp prec emax m e l)))%Z.
Proof.
  intros H. unfold shr_fexp, shr.
  destruct (fexp prec emax (Zdigits2 m + e) - e)%Z; cbn [fst];
    rewrite ?shr_record_of_loc_m; try assumption.
  apply iter_shr_1_nonneg. now rewrite shr_record_of_loc_m.
Qed.

Lemma round_nearest_even_nonneg (m : Z) (l : location) :
  (0 <= m -> 0 <= round_nearest_even m l)%Z.
Proof.
  intros H. destruct l as [|[]]; cbn; try assumption; [|lia].
  destruct (Z.even m); lia.
Qed.

(** Rounding a mantissa that is not negative never gives NaN. *)
Lemma binary_round_aux_not_nan (s : bool) (m e : Z) (l : location) :
  (0 <= m)%Z -> binary_round_aux prec emax s m e l <> S754_nan.
Proof.
  intros H. unfold binary_round_aux.
  pose proof (shr_fexp_nonneg m e l H) as H1.
  destruct (shr_fexp prec emax m e l) as [r1 e1]. cbn [fst] in H1.
  pose proof (shr_fexp_nonneg _ e1 loc_Exact
                (round_nearest_even_nonneg _ (loc_of_shr_record r1) H1)) as H2.
  destruct (shr_fexp prec emax _ e1 loc_Exact) as [r2 e2]. cbn [fst] in H2.
  destruct (shr_m r2) as [|p|p]; [discriminate| |lia].
  destruct (e2 <=? emax - prec)%Z; discriminate.
Qed.

Lemma binary_round_not_nan (s : bool) (m : positive) (e : Z) :
  binary_round prec emax s m e <> S754_nan.
Proof.
  unfold binary_round. destruct (shl_align _ _ _) as [mz ez].
  apply binary_round_aux_not_nan. lia.
Qed.

Lemma binary_normalize_not_nan (m e : Z) (sz : bool) :
  binary_normalize prec emax m e sz <> S754_nan.
Proof.
  destruct m; cbn [binary_normalize]; [discriminate|apply binary_round_not_nan..].
Qed.

Lemma SFdiv_price_not_nan (m1 m2 : positive) (e1 e2 : Z) :
  SFdiv prec emax (S754_finite false m1 e1) (S754_finite false m2 e2) <> S754_nan.
Proof.
  cbn [SFdiv]. unfold SFdiv_core_binary.
  match goal with |- context [Z.div_eucl ?a ?b] =>
    pose proof (Z.div_eucl_eq a b ltac:(discriminate)) as E;
    pose proof (Z.mod_pos_bound a b ltac:(lia)) as B;
    assert (A : (0 <= a)%Z);
    [|unfold Z.modulo in B; destruct (Z.div_eucl a b) as [q r]]
  end.
  { destruct (_ - _ - _)%Z; try lia. apply Z.shiftl_nonneg. lia. }
  apply binary_round_aux_not_nan. nia.
Qed.

Lemma SFsub_finite_not_nan (x : spec_float) (s : bool) (m : positive) (e : Z) :
  x <> S754_nan -> SFsub prec emax x (S754_finite s m e) <> S754_nan.
Proof.
  intros H. destruct x as [sx|sx| |sx mx ex]; cbn [SFsub]; try discriminate;
    [contradiction|apply binary_normalize_not_nan].
Qed.

Lemma SFmul_finite_not_nan (x : spec_float) (s : bool) (m : positive) (e : Z) :
  x <> S754_nan -> SFmul prec emax x (S754_finite s m e) <> S754_nan.
Proof.
  intros H. destruct x as [sx|sx| |sx mx ex]; cbn [SFmul]; try discriminate;
    [contradiction|apply binary_round_aux_not_nan; lia].
Qed.

Lemma SFmul_comm (x y : spec_float) : SFmul prec emax x y = SFmul prec emax y x.
Proof.
  destruct x as [sx|sx| |sx mx ex], y as [sy|sy| |sy my ey]; cbn [SFmul];
    rewrite ?(xorb_comm sx sy); try reflexivity.
  now rewrite Pos.mul_comm, Z.add_comm.
Qed.

End Rounding.

Lemma SFeqb_refl (x : spec_float) : x <> S754_nan -> SFeqb x x = true.
Proof.
  intros H. unfold SFeqb.
  destruct x as [s|s| |s m e]; [reflexivity|destruct s; reflexivity|contradiction|].
  cbn [SFcompare]. rewrite Z.compare_refl.
  assert (E : Pos.compare_cont Eq m m = Eq) by apply Pos.compare_refl.
  rewrite E. destruct s; reflexivity.
Qed.

Lemma is_nan_spec (x : float) : is_nan x = false <-> Prim2SF x <> S754_nan.
Proof.
  unfold is_nan. rewrite eqb_spec, negb_false_iff. split.
  - intros H E. rewrite E in H. discriminate.
  - apply SFeqb_refl.
Qed.

Lemma is_price_spec (x : float) :
  is_price x = true -> exists m e, Prim2SF x = S754_finite false m e.
Proof.
  unfold is_price. rewrite !ltb_spec. intros H. apply andb_prop in H.
  destruct H as [H0 Hi]. unfold SFltb in *.
  change (Prim2SF 0) with (S754_zero false) in H0.
  change (Prim2SF infinity) with (S754_infinity false) in Hi.
  destruct (Prim2SF x) as [s|s| |s m e]; cbn in H0, Hi; try discriminate.
  - destruct s; discriminate.
  - destruct s; [discriminate|]. now exists m, e.
Qed.

Lemma mul_comm (x y : float) : x * y = y * x.
Proof. apply Prim2SF_inj. rewrite !mul_spec. apply SFmul_comm. Qed.

Lemma finite_100 : Prim2SF 100 = S754_finite false 7036874417766400 (-46).
Proof. reflexivity. Qed.

Lemma finite_1 : exists m e, Prim2SF 1 = S754_finite false m e.
Proof. eexists. eexists. reflexivity. Qed.

(** The percentage change between two prices is a number or an infinity,
    never NaN. *)
Lemma pct_not_nan (prev cur : float) :
  is_price prev = true -> is_price cur = true ->
  is_nan ((cur / prev - 1) * 100) = false.
Proof.
  intros Hp Hc. apply is_nan_spec.
  destruct (is_price_spec _ Hp) as (mp & ep & Ep).
  destruct (is_price_spec _ Hc) as (mc & ec & Ec).
  destruct finite_1 as (m1 & e1 & E1).
  rewrite mul_spec, sub_spec, div_spec, Ep, Ec, E1, finite_100.
  apply SFmul_finite_not_nan, SFsub_finite_not_nan, SFdiv_price_not_nan.
Qed.

End FloatFacts.

(** *** The return series *)

Module PandasFacts.
Import Calendar Py Pandas PyFacts FloatFacts.
Local Open Scope Z_scope.

Lemma returns_after_length (prev : Row) (rest : list Row) :
  List.length (returns_after prev rest) = List.length rest.
Proof.
  revert prev. induction rest as [|r t IH]; intros prev; cbn; [reflexivity|].
  now rewrite IH.
Qed.

Lemma returns_after_dates (prev : Row) (rest : list Row) :
  map fst (returns_after prev rest) = map date rest.
Proof.
  revert prev. induction rest as [|r t IH]; intros prev; cbn; [reflexivity|].
  now rewrite IH.
Qed.

Lemma returns_after_nth (prev : Row) (rest : list Row) (i : nat) (r0 r1 : Row) :
  nth_error (prev :: rest) i = Some r0 ->
  nth_error (prev :: rest) (S i) = Some r1 ->
  nth_error (returns_after prev rest) i
  = Some (date r1, ((close r1 / close r0 - 1) * 100)%float).
Proof.
  revert prev rest. induction i as [|i IH]; intros prev rest H0 H1.
  - cbn in H0. injection H0 as <-. destruct rest as [|r t]; [discriminate|].
    cbn in H1. injection H1 as <-. reflexivity.
  - destruct rest as [|r t]; [destruct i; discriminate|].
    cbn [nth_error] in H0. cbn [returns_after nth_error].
    apply IH; assumption.
Qed.

(** What the body of [wrangle_data] computes from a table in date order
    whose prices are not zero. *)
Lemma returns_of_sorted (r0 : Row) (rest : list Row) :
  Forall (fun r => is_price (close r) = true) (r0 :: rest) ->
  dropna (combine (map date (r0 :: rest))
                  (map times100 (pct_change (map close (r0 :: rest)))))
  = returns_after r0 rest.
Proof.
  intros P. unfold dropna. cbn [map pct_change combine filter snd].
  change (negb (is_nan (times100 nan))) with false. cbv iota.
  revert r0 P. induction rest as [|r t IH]; intros r0 P; [reflexivity|].
  inversion P as [|? ? P0 Pt]; subst. inversion Pt as [|? ? P1 _]; subst.
  cbn [map pct_change_from combine returns_after filter snd].
  unfold times100 at 1, change at 1.
  rewrite (pct_not_nan _ _ P0 P1). cbn [negb].
  f_equal. apply IH, Pt.
Qed.

Lemma sort_index_perm (df : DataFrame) : Permutation (sort_index df) df.
Proof. apply sorted_perm. Qed.

Lemma sort_index_sorted (df : DataFrame) :
  StronglySorted (fun a b => date a < date b) df -> sort_index df = df.
Proof.
  intros S. apply sorted_id. apply StronglySorted_Sorted.
  eapply StronglySorted_ind with (P := StronglySorted _); [constructor| |exact S].
  intros a l Sl IH H. constructor; [exact IH|].
  eapply Forall_impl; [|exact H]. cbn beta. intros b Hb. apply Z.leb_le. lia.
Qed.

End PandasFacts.

(** *** What the methods compute *)

Module GarchFacts.
Import Calendar Py Pandas Garch.
Import CalendarFacts CivilFacts FormatFacts PyFacts PandasFacts.
Local Open Scope Z_scope.

Lemma combine_keys (A B : Type) (l : list A) (l' : list B) :
  List.length l = List.length l' -> map fst (combine l l') = l.
Proof.
  revert l'. induction l as [|x t IH]; intros [|y t'] H; cbn in *;
    try reflexivity; try discriminate.
  f_equal. apply IH. lia.
Qed.

Lemma forecast_dates_in_bounds (m : ARCHModelResult) (horizon : Z) :
  ts_min <= res_last_obs m + 1 -> res_last_obs m + 3 * horizon <= ts_max ->
  1 <= horizon ->
  forallb in_bounds (forecast_dates m horizon) = true.
Proof.
  intros L U H. apply forallb_forall. intros x I.
  pose proof (bdate_range_range (res_last_obs m + 1) (Z.to_nat horizon)) as R.
  rewrite Forall_forall in R. specialize (R x I).
  unfold in_bounds. apply andb_true_intro. split; apply Z.leb_le; lia.
Qed.

(** What [predict_volatility] returns for a model whose forecast dates
    stay within [Timestamp]. *)
Lemma predict_volatility_value (Repo Blob : Type) (g : GarchModel)
      (w : World Repo Blob) (m : ARCHModelResult) (horizon : Z) :
  model g = Some m -> 1 <= horizon ->
  ts_min <= res_last_obs m + 1 -> res_last_obs m + 3 * horizon <= ts_max ->
  predict_volatility horizon (g, w)
  = (Ok (combine (map isoformat (forecast_dates m horizon))
                 (forecast_values m horizon)), (g, w)).
Proof.
  intros Hm H1 L U.
  pose proof (forecast_dates_in_bounds m horizon L U H1) as B.
  unfold predict_volatility, bind, self, getattr, lift. cbn [fst snd].
  rewrite Hm. unfold ret, forecast_variance.
  destruct (horizon <? 1) eqn:E; [apply Z.ltb_lt in E; lia|].
  unfold __clean_prediction, bind, lift, frame_sqrt.
  cbn [f_index f_columns f_values map].
  unfold add_days, in_bounds.
  replace ((ts_min <=? res_last_obs m + 1) && (res_last_obs m + 1 <=? ts_max))
    with true
    by (symmetry; apply andb_true_intro; split; apply Z.leb_le; lia).
  unfold bdate_range_checked. fold (forecast_dates m horizon). rewrite B.
  unfold flatten. cbn [f_values List.concat]. rewrite app_nil_r, map_map, map_map.
  fold (forecast_values m horizon).
  unfold series_to_dict.
  assert (Len : List.length (forecast_values m horizon)
                = List.length (map isoformat (forecast_dates m horizon))).
  { unfold forecast_values, forecast_dates.
    now rewrite !length_map, length_seq, bdate_range_length. }
  rewrite Len, Nat.eqb_refl. rewrite dict_of_items_NoDup; [reflexivity|].
  rewrite combine_keys by (symmetry; exact Len).
  apply isoformat_NoDup; [exact B|apply bdate_range_increasing].
Qed.

Section SessionFacts.

Variable Repo : Type.
Variable get_daily : string -> result DataFrame.
Variable insert_table : Repo -> string -> DataFrame -> result Repo.
Variable read_table : Repo -> string -> Z -> result DataFrame.
Variable arch_model_fit : Series -> Z -> Z -> result ARCHModelResult.
Variable Blob : Type.
Variable joblib_dump : ARCHModelResult -> Blob.
Variable joblib_load : Blob -> option ARCHModelResult.

Local Abbreviation World := (World Repo Blob).
Local Abbreviation wrangle_data := (@wrangle_data Repo get_daily insert_table read_table Blob).
Local Abbreviation fit := (@fit Repo arch_model_fit Blob).
Local Abbreviation predict_volatility := (@predict_volatility Repo Blob).
Local Abbreviation dump := (@dump Repo Blob joblib_dump).
Local Abbreviation load := (@load Repo Blob joblib_load).
Local Abbreviation refreshed := (@refreshed Repo get_daily insert_table Blob).
Local Abbreviation candidates := (@candidates Repo Blob).

Lemma wrangle_data_value (g : GarchModel) (w w' : World) (n : Z) (R : DataFrame) :
  refreshed g w w' ->
  read_table (repo w') (ticker g) (n + 1) = Ok R ->
  wrangle_data n (g, w)
  = (Ok tt,
     (set_data (dropna (combine (map date (sort_index R))
                          (map times100 (pct_change (map close (sort_index R))))))
               g, w')).
Proof.
  unfold Garch.refreshed, Garch.wrangle_data, bind, self, setattr, modify,
    repo_read_table, repo_insert_table, lift, ret.
  cbn [fst snd]. intros Rf Rd.
  destruct (use_new_data g).
  - destruct Rf as (nd & r & E1 & E2 & ->). cbn [repo] in Rd.
    rewrite E1. cbn [fst snd]. rewrite E2. cbn [fst snd repo]. now rewrite Rd.
  - subst w'. cbn [fst snd]. now rewrite Rd.
Qed.

Lemma fit_value (g : GarchModel) (w : World) (p q : Z) (d : Series)
      (m : ARCHModelResult) :
  data g = Some d -> arch_model_fit d p q = Ok m ->
  fit p q (g, w)
  = (Ok tt, (set_bic (res_bic m) (set_aic (res_aic m) (set_model m g)), w)).
Proof.
  intros Hd Hm.
  unfold Garch.fit, bind, self, getattr, setattr, modify, lift, ret.
  cbn [fst snd]. rewrite Hd, Hm. reflexivity.
Qed.

Lemma load_none (g : GarchModel) (w : World) :
  candidates g w = [] ->
  load (g, w)
  = (Raise (Exception ("No model trained for '" ++ ticker g ++ "'")), (g, w)).
Proof.
  unfold Garch.candidates, Garch.load, bind, self, get, try_except_IndexError, lift, raise.
  cbn [fst snd]. intros ->. reflexivity.
Qed.

Lemma load_some (g : GarchModel) (w : World) (path : string) :
  last_item (sorted String.leb (candidates g w)) = Ok path ->
  load (g, w)
  = match find (fun nb => String.eqb (dir_prefix (model_directory g) ++ fst nb) path)
               (files w) with
    | Some nb =>
        match joblib_load (snd nb) with
        | Some m => (Ok tt, (set_model m g, w))
        | None => (Raise (External "joblib.load"), (g, w))
        end
    | None => (Raise (External "FileNotFoundError"), (g, w))
    end.
Proof.
  unfold Garch.candidates, Garch.load, bind, self, get, try_except_IndexError, lift,
    raise, read_file, setattr, modify.
  cbn [fst snd]. intros ->. cbn [fst snd].
  destruct (find _ (files w)) as [nb|]; [|reflexivity].
  destruct (joblib_load (snd nb)); reflexivity.
Qed.

Lemma find_candidate (dir : string) (d : dict Blob) (n : string) :
  In n (keys d) ->
  exists b, find (fun nb => String.eqb (dir_prefix dir ++ fst nb) (dir_prefix dir ++ n)) d
            = Some (n, b)
            /\ In (n, b) d.
Proof.
  induction d as [|[k v] t IH]; cbn [keys map fst In find]; [intros []|].
  intros I. destruct (String.eqb_spec (dir_prefix dir ++ k) (dir_prefix dir ++ n)) as [E|Hne].
  - apply append_inj_r in E. subst k. exists v. split; [reflexivity|now left].
  - destruct I as [->|I]; [congruence|].
    destruct (IH I) as (b & F & Ib). exists b. split; [exact F|now right].
Qed.

(** Every outcome of [predict_volatility]. *)
Lemma predict_volatility_eval (g : GarchModel) (w : World) (h : Z) :
  predict_volatility h (g, w)
  = (match model g with
     | None => Raise no_model_error
     | Some m =>
         if h <? 1 then Raise (ValueError "horizon must be an integer >= 1.")
         else if in_bounds (res_last_obs m + 1) then
           if forallb in_bounds (forecast_dates m h)
           then Ok (combine (map isoformat (forecast_dates m h)) (forecast_values m h))
           else Raise OutOfBoundsDatetime
         else Raise OutOfBoundsDatetime
     end, (g, w)).
Proof.
  unfold Garch.predict_volatility, bind, self, getattr, lift, ret, raise, no_model_error.
  cbn [fst snd]. destruct (model g) as [m|]; [|reflexivity].
  unfold forecast_variance. destruct (h <? 1); [reflexivity|].
  unfold __clean_prediction, bind, lift, frame_sqrt.
  cbn [f_index f_columns f_values map]. unfold add_days.
  destruct (in_bounds (res_last_obs m + 1)); [|reflexivity].
  unfold bdate_range_checked. fold (forecast_dates m h).
  destruct (forallb in_bounds (forecast_dates m h)) eqn:B; [|reflexivity].
  unfold flatten. cbn [f_values List.concat]. rewrite app_nil_r, map_map, map_map.
  fold (forecast_values m h). unfold series_to_dict.
  assert (Len : List.length (forecast_values m h)
                = List.length (map isoformat (forecast_dates m h))).
  { unfold forecast_values, forecast_dates.
    now rewrite !length_map, length_seq, bdate_range_length. }
  rewrite Len, Nat.eqb_refl. rewrite dict_of_items_NoDup; [reflexivity|].
  rewrite combine_keys by (symmetry; exact Len).
  apply isoformat_NoDup; [exact B|apply bdate_range_increasing].
Qed.

End SessionFacts.

End GarchFacts.

(** *** The specification of the methods *)

Module GarchSpec.
Import Calendar Py Pandas Garch.
Import CalendarFacts CivilFacts FormatFacts PyFacts PandasFacts GarchFacts.
Local Open Scope Z_scope.

Lemma timestamp_head (now : datetime) :
  exists c rest,
    replace_char ":" "-" (isoformat_datetime now) = String c rest
    /\ c <> "."%char /\ c <> "/"%char.
Proof.
  unfold isoformat_datetime, iso_date.
  destruct (civil_from_days (dt_day now)) as [[y m] d].
  cbn [pad4 append replace_char].
  eexists. eexists. split; [reflexivity|].
  pose proof (is_digit_digit (y / 1000)) as D.
  destruct (Ascii.eqb (digit (y / 1000)) ":"); [split; discriminate|].
  split; intros E; rewrite E in D; discriminate.
Qed.

Definition stamp_char (c : ascii) : bool :=
  is_digit c || Ascii.eqb c "-" || Ascii.eqb c "T" || Ascii.eqb c ":" || Ascii.eqb c ".".

Lemma isoformat_datetime_chars (now : datetime) :
  forallb stamp_char (list_ascii_of_string (isoformat_datetime now)) = true.
Proof.
  unfold isoformat_datetime, iso_date.
  destruct (civil_from_days (dt_day now)) as [[y m] d].
  destruct (Z.eqb (dt_microsecond now) 0);
    cbn [pad6 pad4 pad2 append list_ascii_of_string forallb]; unfold stamp_char;
    rewrite !is_digit_digit; reflexivity.
Qed.

Lemma stamp_char_no_slash (c : ascii) :
  stamp_char c = true ->
  Ascii.eqb (if Ascii.eqb c ":" then "-"%char else c) "/" = false.
Proof.
  intros H. destruct (Ascii.eqb c ":"); [reflexivity|].
  destruct (Ascii.eqb_spec c "/") as [->|]; [discriminate|reflexivity].
Qed.

Lemma timestamp_no_slash (now : datetime) :
  has_slash (replace_char ":" "-" (isoformat_datetime now)) = false.
Proof.
  pose proof (isoformat_datetime_chars now) as H. unfold has_slash.
  induction (isoformat_datetime now) as [|c s IH]; [reflexivity|].
  cbn [list_ascii_of_string forallb] in H. apply andb_prop in H. destruct H as [Hc Hs].
  cbn [replace_char list_ascii_of_string existsb].
  now rewrite (stamp_char_no_slash c Hc), (IH Hs).
Qed.

Lemma has_slash_app (a b : string) : has_slash (a ++ b) = has_slash a || has_slash b.
Proof. unfold has_slash. now rewrite list_ascii_of_string_app, existsb_app. Qed.

Lemma plain_ticker_no_slash (t : string) : plain_ticker t = true -> has_slash t = false.
Proof.
  unfold plain_ticker, has_slash. induction (list_ascii_of_string t) as [|c l IH];
    [reflexivity|].
  cbn [forallb existsb]. intros H. apply andb_prop in H. destruct H as [Hc Hl].
  rewrite (IH Hl), orb_false_r. apply negb_true_iff, orb_false_iff in Hc. apply Hc.
Qed.

(** For a plain ticker the name of the artifact stays inside the model
    directory. *)
Lemma artifact_name_no_slash (g : GarchModel) (now : datetime) :
  plain_ticker (ticker g) = true -> has_slash (artifact_name g now) = false.
Proof.
  intros H. unfold artifact_name.
  rewrite !has_slash_app, timestamp_no_slash, (plain_ticker_no_slash _ H). reflexivity.
Qed.

Lemma artifact_path (g : GarchModel) (now : datetime) :
  os_path_join (model_directory g) (artifact_name g now)
  = (dir_prefix (model_directory g) ++ artifact_name g now)%string.
Proof.
  unfold artifact_name. destruct (timestamp_head now) as (c & rest & -> & _ & N).
  cbn [append]. unfold os_path_join.
  destruct c as [[] [] [] [] [] [] [] []]; try reflexivity. now contradiction N.
Qed.

Lemma artifact_name_matches (g : GarchModel) (now : datetime) :
  glob_match (pattern g) (artifact_name g now) = true.
Proof.
  unfold pattern, artifact_name. apply artifact_matches.
  destruct (timestamp_head now) as (c & rest & -> & N & _).
  cbn. apply Ascii.eqb_neq. exact N.
Qed.

(** The outcome of [predict_volatility] is a function of the model
    attribute alone, and the call changes nothing. *)
Lemma predict_volatility_model (Repo Blob Repo' Blob' : Type)
      (g g' : GarchModel) (w : World Repo Blob) (w' : World Repo' Blob') (h : Z) :
  model g = model g' ->
  fst (predict_volatility h (g, w)) = fst (predict_volatility h (g', w')).
Proof.
  intros E. unfold predict_volatility, bind, self, getattr, lift, ret, raise.
  cbn [fst snd]. rewrite <- E. destruct (model g) as [m|]; [|reflexivity].
  destruct (forecast_variance m h) as [f|e]; [|reflexivity].
  unfold __clean_prediction, bind, lift.
  destruct (f_index (frame_sqrt f)) as [|d ?]; [reflexivity|].
  destruct (add_days d 1); [|reflexivity].
  destruct (bdate_range_checked _ _); [|reflexivity].
  destruct (series_to_dict _ _); reflexivity.
Qed.

Section Claims.

Variable Repo : Type.
Variable get_daily : string -> result DataFrame.
Variable insert_table : Repo -> string -> DataFrame -> result Repo.
Variable read_table : Repo -> string -> Z -> result DataFrame.
Variable arch_model_fit : Series -> Z -> Z -> result ARCHModelResult.
Variable Blob : Type.
Variable joblib_dump : ARCHModelResult -> Blob.
Variable joblib_load : Blob -> option ARCHModelResult.

Local Abbreviation World := (World Repo Blob).
Local Abbreviation wrangle_data := (@wrangle_data Repo get_daily insert_table read_table Blob).
Local Abbreviation fit := (@fit Repo arch_model_fit Blob).
Local Abbreviation predict_volatility := (@predict_volatility Repo Blob).
Local Abbreviation dump := (@dump Repo Blob joblib_dump).
Local Abbreviation load := (@load Repo Blob joblib_load).
Local Abbreviation refreshed := (@refreshed Repo get_daily insert_table Blob).
Local Abbreviation candidates := (@candidates Repo Blob).

(** C3.  When the repository returns the rows [R] in ascending date order
    (dates are unique) with prices as closes, [wrangle_data] stores a
    series of [|R| - 1] returns; its [i]-th entry is dated as row [i+1]
    and is worth [100 * (close[i+1] / close[i] - 1)], computed in
    binary64; the dates ascend strictly; the return of the first row is
    dropped. *)
Theorem wrangle_data_returns (g : GarchModel) (w w' : World) (n : Z) (R : DataFrame) :
  refreshed g w w' ->
  read_table (repo w') (ticker g) (n + 1) = Ok R ->
  (2 <= List.length R)%nat ->
  StronglySorted (fun a b => date a < date b) R ->
  Forall (fun r => is_price (close r) = true) R ->
  exists s,
    wrangle_data n (g, w) = (Ok tt, (set_data s g, w'))
    /\ List.length s = (List.length R - 1)%nat
    /\ (forall i r0 r1,
           nth_error R i = Some r0 -> nth_error R (S i) = Some r1 ->
           nth_error s i = Some (date r1, (100 * (close r1 / close r0 - 1))%float))
    /\ StronglySorted Z.lt (map fst s).
Proof.
  intros Rf Rd Len Srt P.
  destruct R as [|r0 rest]; [cbn in Len; lia|].
  exists (returns_after r0 rest).
  rewrite (wrangle_data_value _ _ _ _ _ _ _ _ _ _ Rf Rd).
  rewrite (sort_index_sorted _ Srt).
  rewrite (returns_of_sorted _ _ P).
  split; [reflexivity|]. split; [|split].
  - rewrite returns_after_length. cbn. lia.
  - intros i a b Ha Hb. rewrite (returns_after_nth _ _ _ _ _ Ha Hb).
    now rewrite FloatFacts.mul_comm.
  - rewrite returns_after_dates.
    inversion Srt as [|? ? St _]; subst. clear - St.
    induction St as [|a l Sl IH H]; cbn [map]; constructor; [exact IH|].
    rewrite Forall_map. exact H.
Qed.

(** C7, amended.  When the repository returns all the [N + 1] rows it
    is asked for, with prices as closes, the stored series has [N]
    entries. *)
Theorem wrangle_data_length (g : GarchModel) (w w' : World) (n : Z) (R : DataFrame) :
  refreshed g w w' ->
  read_table (repo w') (ticker g) (n + 1) = Ok R ->
  0 <= n ->
  Z.of_nat (List.length R) = n + 1 ->
  Forall (fun r => is_price (close r) = true) R ->
  exists s,
    wrangle_data n (g, w) = (Ok tt, (set_data s g, w'))
    /\ Z.of_nat (List.length s) = n.
Proof.
  intros Rf Rd N Len P.
  rewrite (wrangle_data_value _ _ _ _ _ _ _ _ _ _ Rf Rd).
  eexists. split; [reflexivity|].
  pose proof (sort_index_perm R) as Perm.
  assert (P' : Forall (fun r => is_price (close r) = true) (sort_index R))
    by (apply (Permutation_Forall (Permutation_sym Perm)), P).
  apply Permutation_length in Perm.
  destruct (sort_index R) as [|r0 rest]; [cbn in Perm; lia|].
  rewrite (returns_of_sorted _ _ P'), returns_after_length.
  cbn [List.length] in Perm. lia.
Qed.

(** C4, amended.  For a fitted model and a horizon [H >= 1],
    [predict_volatility] returns a forecast whenever the start date and
    the [H] forecast dates are within the range of [Timestamp]; and every
    forecast it returns has exactly [H] entries; its keys are the texts
    [YYYY-MM-DDT00:00:00] of [H] dates, in the order of the entries; every
    one of the dates is a business day after the last observation, and the
    dates increase strictly. *)
Theorem predict_volatility_keys (g : GarchModel) (w : World)
        (m : ARCHModelResult) (horizon : Z) :
  model g = Some m -> 1 <= horizon ->
  (in_bounds (res_last_obs m + 1) = true ->
   forallb in_bounds (forecast_dates m horizon) = true ->
   exists d, predict_volatility horizon (g, w) = (Ok d, (g, w)))
  /\ (forall d s',
        predict_volatility horizon (g, w) = (Ok d, s') ->
        exists dates : list Timestamp,
          Z.of_nat (List.length d) = horizon
          /\ keys d = map isoformat dates
          /\ Forall (fun k => is_iso_datetime k = true) (keys d)
          /\ Forall (fun k => exists day, In day dates
                                          /\ k = (iso_date day ++ "T00:00:00")%string)
                    (keys d)
          /\ Forall (fun day => is_business_day day = true /\ res_last_obs m < day)
                    dates
          /\ StronglySorted Z.lt dates).
Proof.
  intros Hm H1. rewrite (predict_volatility_eval Repo Blob g w horizon), Hm.
  destruct (horizon <? 1) eqn:Hh; [apply Z.ltb_lt in Hh; lia|].
  split.
  - intros -> ->. eexists. reflexivity.
  - intros d s' E.
    destruct (in_bounds (res_last_obs m + 1)); [|discriminate].
    destruct (forallb in_bounds (forecast_dates m horizon)); [|discriminate].
    injection E as <- _.
    exists (forecast_dates m horizon).
    assert (Len : List.length (map isoformat (forecast_dates m horizon))
                  = List.length (forecast_values m horizon)).
    { unfold forecast_values, forecast_dates.
      now rewrite !length_map, length_seq, bdate_range_length. }
    unfold keys. rewrite (combine_keys _ _ _ _ Len).
    split; [|split; [reflexivity|split; [|split; [|split]]]].
    + rewrite length_combine, <- Len, Nat.min_id, length_map.
      unfold forecast_dates. rewrite bdate_range_length. lia.
    + rewrite Forall_map. apply Forall_forall. intros x _. apply isoformat_is_datetime.
    + rewrite Forall_map. apply Forall_forall. intros x I.
      exists x. split; [exact I|apply isoformat_date_part].
    + pose proof (bdate_range_business (res_last_obs m + 1) (Z.to_nat horizon)) as B.
      pose proof (bdate_range_range (res_last_obs m + 1) (Z.to_nat horizon)) as R.
      unfold forecast_dates. rewrite Forall_forall in *. intros x I.
      specialize (B x I). specialize (R x I). split; [exact B|lia].
    + apply bdate_range_increasing.
Qed.

(** When the directory holds an artifact [<prefix>_<ticker>.pkl] of the
    ticker, [load] takes the last of the sorted matches of its pattern,
    which no match exceeds in the order of strings, reads the file of that
    path and makes its content the active model. *)
Lemma load_selects_latest (g : GarchModel) (w : World) (prefix : string) :
  plain_ticker (ticker g) = true ->
  starts_with_dot prefix = false ->
  In (prefix ++ "_" ++ ticker g ++ ".pkl")%string (keys (files w)) ->
  exists path name b,
    last_item (sorted String.leb (candidates g w)) = Ok path
    /\ In path (candidates g w)
    /\ (forall p, In p (candidates g w) -> String.leb p path = true)
    /\ path = (dir_prefix (model_directory g) ++ name)%string
    /\ glob_match (pattern g) name = true
    /\ In (name, b) (files w)
    /\ load (g, w)
       = match joblib_load b with
         | Some m => (Ok tt, (set_model m g, w))
         | None => (Raise (External "joblib.load"), (g, w))
         end.
Proof.
  intros _ Hdot Hin.
  assert (NE : candidates g w <> []).
  { intros E.
    assert (I : In (dir_prefix (model_directory g) ++ prefix ++ "_" ++ ticker g ++ ".pkl")%string
                   (candidates g w)).
    { apply In_glob. eexists. split; [reflexivity|]. split; [exact Hin|].
      unfold pattern. now apply artifact_matches. }
    rewrite E in I. destruct I. }
  destruct (last_item_sorted _ String.leb String.leb_total string_leb_trans _ NE)
    as (path & Hlast & Hmem & Hmax).
  pose proof Hmem as Hmem'. apply In_glob in Hmem'.
  destruct Hmem' as (name & -> & Hname & Hmatch).
  destruct (find_candidate _ (model_directory g) (files w) name Hname) as (b & Hfind & Hb).
  exists (dir_prefix (model_directory g) ++ name)%string, name, b.
  repeat (split; [assumption || reflexivity|]).
  rewrite (load_some _ _ joblib_load g w _ Hlast), Hfind. reflexivity.
Qed.

(** [load] raises the exception whose message names the ticker exactly
    when no file of the directory matches its pattern; the object and the
    files are then as they were. *)
Lemma load_not_found (g : GarchModel) (w : World) :
  (fst (load (g, w)) = Raise (Exception ("No model trained for '" ++ ticker g ++ "'"))
   <-> candidates g w = [])
  /\ (candidates g w = [] ->
      load (g, w)
      = (Raise (Exception ("No model trained for '" ++ ticker g ++ "'")), (g, w))).
Proof.
  split; [split|]; try (intros E; now rewrite (load_none _ _ joblib_load g w E)).
  intros E. destruct (candidates g w) as [|c cs] eqn:Ec; [reflexivity|exfalso].
  assert (NE : candidates g w <> []) by (rewrite Ec; discriminate).
  destruct (last_item_sorted _ String.leb String.leb_total string_leb_trans _ NE)
    as (path & Hlast & _).
  rewrite (load_some _ _ joblib_load g w _ Hlast) in E.
  destruct (find _ (files w)) as [nb|]; [|discriminate].
  destruct (joblib_load (snd nb)); discriminate.
Qed.

Lemma dump_value (g : GarchModel) (w : World) (now : datetime) (m : ARCHModelResult) :
  model g = Some m -> plain_ticker (ticker g) = true ->
  dump now (g, w)
  = (Ok (os_path_join (model_directory g) (artifact_name g now)),
     (g, mkWorld (repo w) (dict_set (artifact_name g now) (joblib_dump m) (files w)))).
Proof.
  intros Hm Hp. pose proof (artifact_name_no_slash g now Hp) as Hs.
  unfold artifact_name in *.
  unfold Garch.dump, bind, self, getattr, write_file, modify, ret.
  cbn [fst snd]. rewrite Hm. cbn [fst snd]. rewrite Hs. reflexivity.
Qed.

(** X11.  For a plain ticker and a model directory without magic
    characters: after [dump] and then [load], with nothing in between, the
    active model is the model that was saved and [predict_volatility]
    returns what it returned before the save, provided the new path sorts
    last among the matches that were already there and joblib reads back
    what it wrote. *)
Lemma dump_load_roundtrip (g : GarchModel) (w : World) (now : datetime)
        (m : ARCHModelResult) (horizon : Z) :
  model g = Some m ->
  plain_ticker (ticker g) = true ->
  plain_directory (model_directory g) = true ->
  joblib_load (joblib_dump m) = Some m ->
  (forall p, In p (candidates g w) ->
             String.leb p (os_path_join (model_directory g) (artifact_name g now)) = true) ->
  exists path s1 s2,
    dump now (g, w) = (Ok path, s1)
    /\ load s1 = (Ok tt, s2)
    /\ model (fst s2) = Some m
    /\ fst (predict_volatility horizon s2) = fst (predict_volatility horizon (g, w)).
Proof.
  intros Hm Hp _ Hrt Hold.
  rewrite artifact_path in Hold.
  set (name := artifact_name g now) in *.
  set (w1 := mkWorld (repo w) (dict_set name (joblib_dump m) (files w))).
  set (new := (dir_prefix (model_directory g) ++ name)%string) in *.
  assert (Inew : In new (candidates g w1)).
  { apply In_glob. exists name. split; [reflexivity|]. split.
    - cbn [files w1]. apply In_keys_dict_set. now left.
    - apply artifact_name_matches. }
  assert (NE : candidates g w1 <> []) by (intros E; rewrite E in Inew; destruct Inew).
  destruct (last_item_sorted _ String.leb String.leb_total string_leb_trans _ NE)
    as (path & Hlast & Hmem & Hmax).
  assert (Hpath : path = new).
  { apply string_leb_antisym; [|now apply Hmax].
    apply In_glob in Hmem. destruct Hmem as (n & -> & Hn & Hmatch).
    cbn [files w1] in Hn. apply In_keys_dict_set in Hn. destruct Hn as [->|Hn].
    - apply string_leb_refl.
    - apply Hold. apply In_glob. now exists n. }
  subst path.
  exists (os_path_join (model_directory g) name), (g, w1), (set_model m g, w1).
  split; [now apply dump_value|]. split; [|split].
  - rewrite (load_some _ _ joblib_load g w1 _ Hlast). cbn [files w1].
    unfold new. rewrite find_dict_set. cbn [snd]. now rewrite Hrt.
  - reflexivity.
  - apply predict_volatility_model. cbn. now rewrite Hm.
Qed.

(** C9.  While the attribute [model] is unassigned, as it is on a
    freshly constructed object, [dump] and [predict_volatility] raise
    [AttributeError]; no file is written and no forecast is returned. *)
Theorem unfitted_session_raises (g : GarchModel) (w : World) (now : datetime)
        (horizon : Z) :
  model g = None ->
  dump now (g, w) = (Raise no_model_error, (g, w))
  /\ predict_volatility horizon (g, w) = (Raise no_model_error, (g, w)).
Proof.
  intros Hm. unfold Garch.dump, Garch.predict_volatility, bind, self, getattr, raise.
  cbn [fst snd]. rewrite Hm. split; reflexivity.
Qed.

(** C10.  Whatever its outcome, [load] leaves the series, [aic], [bic],
    the ticker, the flags, the repository and the files as they were;
    after a successful [fit] and a later [load], [aic] and [bic] are
    still those of the fitted model. *)
Theorem load_frame (g g' : GarchModel) (w w' : World) (r : result unit) :
  load (g, w) = (r, (g', w')) ->
  (w' = w /\ data g' = data g /\ aic g' = aic g /\ bic g' = bic g
   /\ ticker g' = ticker g /\ use_new_data g' = use_new_data g
   /\ model_directory g' = model_directory g
   /\ (r = Ok tt -> exists m, model g' = Some m)
   /\ (r <> Ok tt -> model g' = model g))
  /\ (forall g0 w0 p q d m,
         data g0 = Some d -> arch_model_fit d p q = Ok m ->
         fit p q (g0, w0) = (Ok tt, (g, w)) ->
         aic g' = Some (res_aic m) /\ bic g' = Some (res_bic m)).
Proof.
  intros Hl.
  assert (Frame : w' = w /\ data g' = data g /\ aic g' = aic g /\ bic g' = bic g
                  /\ ticker g' = ticker g /\ use_new_data g' = use_new_data g
                  /\ model_directory g' = model_directory g
                  /\ (r = Ok tt -> exists m, model g' = Some m)
                  /\ (r <> Ok tt -> model g' = model g)).
  { destruct (candidates g w) as [|c cs] eqn:Ec.
    - rewrite (load_none _ _ joblib_load g w Ec) in Hl.
      injection Hl as <- <- <-. repeat (split; [reflexivity|]).
      split; [discriminate|reflexivity].
    - assert (NE : candidates g w <> []) by (rewrite Ec; discriminate).
      destruct (last_item_sorted _ String.leb String.leb_total string_leb_trans _ NE)
        as (path & Hlast & _).
      rewrite (load_some _ _ joblib_load g w _ Hlast) in Hl.
      destruct (find _ (files w)) as [nb|].
      + destruct (joblib_load (snd nb)) as [m|].
        * injection Hl as <- <- <-. repeat (split; [reflexivity|]).
          split; [intros _; now exists m|intros N; now contradiction N].
        * injection Hl as <- <- <-. repeat (split; [reflexivity|]).
          split; [discriminate|reflexivity].
      + injection Hl as <- <- <-. repeat (split; [reflexivity|]).
        split; [discriminate|reflexivity]. }
  split; [exact Frame|].
  intros g0 w0 p q d m Hd Hfit Hrun.
  rewrite (fit_value _ arch_model_fit _ g0 w0 p q _ _ Hd Hfit) in Hrun.
  injection Hrun as <- <-.
  destruct Frame as (_ & _ & -> & -> & _). split; reflexivity.
Qed.

End Claims.

End GarchSpec.

(** *** The methods on the small configuration *)

Module GarchExamples.
Import Calendar Py Pandas Garch Demo.
Import CalendarFacts CivilFacts FormatFacts PyFacts PandasFacts GarchFacts GarchSpec.
Local Open Scope Z_scope.

Local Abbreviation wrangle_data :=
  (@wrangle_data Repo get_daily insert_table read_table Blob).
Local Abbreviation fit := (@fit Repo arch_model_fit Blob).
Local Abbreviation predict_volatility := (@predict_volatility Repo Blob).
Local Abbreviation dump := (@dump Repo Blob joblib_dump).
Local Abbreviation load := (@load Repo Blob joblib_load).
Local Abbreviation candidates := (@candidates Repo Blob).

(** C1.  The model forecasts a variance of 16 for the first step, whose
    square root is 4; [predict_volatility] returns 2, the square root taken
    in [predict_volatility] and again in [__clean_prediction]. *)
Theorem predict_volatility_double_sqrt :
  predict_volatility 1 (zn_fitted, empty_dir)
  = (Ok [("2023-01-06T00:00:00"%string, 2%float)], (zn_fitted, empty_dir))
  /\ PrimFloat.sqrt (res_variance zn_model 1) = 4%float
  /\ PrimFloat.eqb 2 4 = false.
Proof. repeat split; vm_compute; reflexivity. Qed.

(** C2.  With the files of ZN and of AMZN in the directory, [load] for the
    ticker ZN matches both names and makes the model of AMZN the active
    one. *)
Theorem load_suffix_collision :
  candidates zn mixed_dir
  = ["models/2023-01-05T12-00-00_ZN.pkl"; "models/2024-01-01T00-00-00_AMZN.pkl"]%string
  /\ load (zn, mixed_dir) = (Ok tt, (set_model amzn_model zn, mixed_dir)).
Proof. split; vm_compute; reflexivity. Qed.

(** C5.  The directory holds one artifact of ZN and a later one of AMZN;
    [load] for ZN takes the last of the sorted matches of [*ZN.pkl], which
    is the file of AMZN, not the greatest artifact of ZN. *)
Theorem load_latest_of_other_instrument :
  filter (is_artifact_of "ZN") (keys (files mixed_dir))
  = ["2023-01-05T12-00-00_ZN.pkl"%string]
  /\ last_item (sorted String.leb (candidates zn mixed_dir))
     = Ok "models/2024-01-01T00-00-00_AMZN.pkl"%string
  /\ load (zn, mixed_dir) = (Ok tt, (set_model amzn_model zn, mixed_dir)).
Proof. repeat split; vm_compute; reflexivity. Qed.

(** C6.  The directory holds no artifact of ZN, only one of AMZN; [load]
    for ZN does not raise: it returns with the model of AMZN active. *)
Theorem load_returns_without_artifact :
  filter (is_artifact_of "ZN") (keys (files amzn_only)) = []
  /\ candidates zn amzn_only = ["models/2024-01-01T00-00-00_AMZN.pkl"%string]
  /\ load (zn, amzn_only) = (Ok tt, (set_model amzn_model zn, amzn_only)).
Proof. repeat split; vm_compute; reflexivity. Qed.

Lemma wrangle_data_returns_witness :
  exists s,
    wrangle_data 2 (zn, in_order) = (Ok tt, (set_data s zn, in_order))
    /\ List.length s = 2%nat.
Proof.
  destruct (@wrangle_data_returns Repo get_daily insert_table read_table Blob
              zn in_order in_order 2 ascending) as (s & Hs & Hlen & _).
  - reflexivity.
  - reflexivity.
  - cbn. lia.
  - repeat constructor; cbn; lia.
  - repeat constructor.
  - exists s. split; [exact Hs|exact Hlen].
Defined.

(** C7, as stated, fails: two observations are requested from a table
    of four rows, and the series has two entries, not one. *)
Lemma wrangle_data_length_counterexample :
  exists s,
    wrangle_data 2 (zn, empty_dir) = (Ok tt, (set_data s zn, empty_dir))
    /\ List.length s = 2%nat
    /\ Z.of_nat (List.length s) <> 2 - 1.
Proof.
  eexists. split; [vm_compute; reflexivity|]. split; [reflexivity|]. cbn. lia.
Qed.

Lemma wrangle_data_length_witness :
  exists s,
    wrangle_data 2 (zn, empty_dir) = (Ok tt, (set_data s zn, empty_dir))
    /\ Z.of_nat (List.length s) = 2.
Proof.
  apply (@wrangle_data_length Repo get_daily insert_table read_table Blob
           zn empty_dir empty_dir 2 (firstn 3 prices)).
  - reflexivity.
  - reflexivity.
  - lia.
  - reflexivity.
  - repeat constructor.
Defined.

(** C4, as stated, fails: the key of the forecast is a date and a time,
    not a calendar date. *)
Lemma predict_volatility_keys_counterexample :
  exists d,
    predict_volatility 1 (zn_fitted, empty_dir) = (Ok d, (zn_fitted, empty_dir))
    /\ keys d = ["2023-01-06T00:00:00"%string]
    /\ Forall (fun k => is_iso_calendar_date k = false) (keys d).
Proof.
  eexists. split; [vm_compute; reflexivity|]. split; [reflexivity|].
  repeat constructor.
Qed.

Lemma predict_volatility_keys_witness :
  exists d,
    predict_volatility 5 (zn_fitted, empty_dir) = (Ok d, (zn_fitted, empty_dir))
    /\ exists dates : list Timestamp,
         Z.of_nat (List.length d) = 5 /\ keys d = map isoformat dates.
Proof.
  destruct (@predict_volatility_keys Repo Blob zn_fitted empty_dir zn_model 5)
    as (Hret & Hall).
  - reflexivity.
  - lia.
  - destruct (Hret eq_refl eq_refl) as (d & Hd).
    destruct (Hall d _ Hd) as (dates & H1 & H2 & _).
    exists d. split; [exact Hd|]. exists dates. split; assumption.
Defined.

Lemma load_selects_latest_witness :
  exists path,
    In path (candidates zn mixed_dir)
    /\ (forall p, In p (candidates zn mixed_dir) -> String.leb p path = true).
Proof.
  destruct (@load_selects_latest Repo Blob joblib_load zn mixed_dir
              "2023-01-05T12-00-00") as (path & name & b & _ & H1 & H2 & _).
  - reflexivity.
  - reflexivity.
  - cbn. now left.
  - exists path. split; assumption.
Defined.

Lemma load_not_found_witness :
  load (zn, empty_dir) = (Raise (Exception "No model trained for 'ZN'"), (zn, empty_dir)).
Proof.
  apply (proj2 (@load_not_found Repo Blob joblib_load zn empty_dir)). reflexivity.
Defined.

(** C8.  ZN saves its model; AMZN saves its own afterwards; [load] for
    ZN then makes the model of AMZN the active one, and the forecast is
    not the one of the model that ZN saved. *)
Theorem dump_load_other_instrument :
  exists w1 w2,
    dump noon (zn_fitted, empty_dir)
    = (Ok "models/2023-01-05T12-00-00_ZN.pkl"%string, (zn_fitted, w1))
    /\ dump later (amzn_fitted, w1)
       = (Ok "models/2024-03-18T09-30-15.250000_AMZN.pkl"%string, (amzn_fitted, w2))
    /\ load (zn_fitted, w2) = (Ok tt, (set_model amzn_model zn, w2))
    /\ fst (predict_volatility 1 (zn_fitted, empty_dir))
       = Ok [("2023-01-06T00:00:00"%string, 2%float)]
    /\ fst (predict_volatility 1 (set_model amzn_model zn, w2))
       = Ok [("2023-01-06T00:00:00"%string, 3%float)]
    /\ PrimFloat.eqb 2 3 = false.
Proof.
  eexists. eexists. repeat split; vm_compute; reflexivity.
Qed.

(** A file written at a whole second sorts after a file written later in
    the same second: [load] takes the older one. *)
Lemma dump_load_same_second :
  exists w1,
    dump quarter_past_noon (zn_fitted, sharp_dir)
    = (Ok "models/2023-01-05T12-00-00.250000_ZN.pkl"%string, (zn_fitted, w1))
    /\ load (zn_fitted, w1) = (Ok tt, (set_model zn_old_model zn, w1)).
Proof.
  eexists. split; vm_compute; reflexivity.
Qed.

Lemma dump_load_roundtrip_example :
  exists path s1 s2,
    dump later (zn_fitted, mixed_dir) = (Ok path, s1)
    /\ load s1 = (Ok tt, s2)
    /\ model (fst s2) = Some zn_model.
Proof.
  destruct (@dump_load_roundtrip Repo Blob joblib_dump joblib_load
              zn_fitted mixed_dir later zn_model 5)
    as (path & s1 & s2 & H1 & H2 & H3 & _).
  - reflexivity.
  - reflexivity.
  - reflexivity.
  - reflexivity.
  - intros p I. vm_compute in I. destruct I as [<-|[<-|[]]]; reflexivity.
  - exists path, s1, s2. repeat split; assumption.
Defined.

Lemma unfitted_session_raises_witness :
  dump noon (zn, empty_dir) = (Raise no_model_error, (zn, empty_dir))
  /\ predict_volatility 5 (zn, empty_dir) = (Raise no_model_error, (zn, empty_dir)).
Proof.
  apply (@unfitted_session_raises Repo Blob joblib_dump zn empty_dir noon 5).
  reflexivity.
Defined.

Lemma load_frame_witness :
  exists g1 g2,
    fit 1 1 (set_data [] zn, mixed_dir) = (Ok tt, (g1, mixed_dir))
    /\ load (g1, mixed_dir) = (Ok tt, (g2, mixed_dir))
    /\ model g2 = Some amzn_model
    /\ aic g2 = Some (res_aic zn_model) /\ bic g2 = Some (res_bic zn_model)
    /\ data g2 = Some [].
Proof.
  set (g1 := set_bic (res_bic zn_model) (set_aic (res_aic zn_model)
                (set_model zn_model (set_data [] zn)))).
  set (g2 := set_model amzn_model g1).
  assert (Hfit : fit 1 1 (set_data [] zn, mixed_dir) = (Ok tt, (g1, mixed_dir)))
    by reflexivity.
  assert (Hload : load (g1, mixed_dir) = (Ok tt, (g2, mixed_dir)))
    by (vm_compute; reflexivity).
  destruct (@load_frame Repo arch_model_fit Blob joblib_load
              g1 g2 mixed_dir mixed_dir (Ok tt) Hload)
    as ((_ & Hd & _) & Hm).
  destruct (Hm (set_data [] zn) mixed_dir 1 1 [] zn_model eq_refl eq_refl Hfit)
    as (Ha & Hb).
  exists g1, g2. repeat split; assumption.
Defined.

End GarchExamples.

(** *** More on sorting, dates and files *)

Module MethodFacts.
Import Calendar Py Pandas Garch Caller.
Import CalendarFacts CivilFacts FormatFacts PyFacts PandasFacts GarchFacts.
Local Open Scope Z_scope.

(** Sorting by a key without repetitions has one result. *)
Lemma strictly_sorted_unique (l1 l2 : DataFrame) :
  StronglySorted (fun a b => date a < date b) l1 ->
  StronglySorted (fun a b => date a < date b) l2 ->
  Permutation l1 l2 -> l1 = l2.
Proof.
  revert l2. induction l1 as [|a t1 IH]; intros l2 S1 S2 P.
  - apply Permutation_nil in P. now subst.
  - destruct l2 as [|b t2]; [apply Permutation_sym, Permutation_nil in P; discriminate|].
    inversion S1 as [|? ? S1' H1]; subst. inversion S2 as [|? ? S2' H2]; subst.
    assert (E : a = b).
    { assert (Ia : In a (b :: t2)) by (apply (Permutation_in _ P); now left).
      assert (Ib : In b (a :: t1))
        by (apply (Permutation_in _ (Permutation_sym P)); now left).
      destruct Ia as [->|Ia]; [reflexivity|].
      destruct Ib as [->|Ib]; [reflexivity|].
      rewrite Forall_forall in H1, H2.
      specialize (H1 b Ib). specialize (H2 a Ia). lia. }
    subst b. f_equal. apply IH; [assumption..|].
    now apply Permutation_cons_inv in P.
Qed.

Lemma sort_index_strict (df : DataFrame) :
  NoDup (map date df) ->
  StronglySorted (fun a b => date a < date b) (sort_index df).
Proof.
  intros ND.
  assert (ND' : NoDup (map date (sort_index df))).
  { eapply Permutation_NoDup; [|exact ND].
    apply Permutation_map, Permutation_sym, sort_index_perm. }
  assert (S : StronglySorted (fun a b => Z.leb (date a) (date b) = true) (sort_index df)).
  { apply sorted_sorted.
    - intros x y. destruct (Z.leb_spec (date x) (date y)); [now left|right].
      apply Z.leb_le. lia.
    - intros x y z H1 H2. apply Z.leb_le in H1, H2. apply Z.leb_le. lia. }
  induction S as [|a l Sl IH H]; [constructor|].
  cbn [map] in ND'. inversion ND' as [|? ? Na Nl]; subst.
  constructor; [now apply IH|].
  rewrite Forall_forall in *. intros b Ib. specialize (H b Ib). apply Z.leb_le in H.
  assert (date a <> date b) by (intros E; apply Na; rewrite E; now apply in_map).
  lia.
Qed.

Lemma sort_index_permuted (df df' : DataFrame) :
  NoDup (map date df) -> Permutation df df' -> sort_index df = sort_index df'.
Proof.
  intros ND P. apply strictly_sorted_unique.
  - now apply sort_index_strict.
  - apply sort_index_strict. eapply Permutation_NoDup; [|exact ND].
    now apply Permutation_map.
  - rewrite (sort_index_perm df), (sort_index_perm df'). exact P.
Qed.

(** What [dropna] keeps of a column whose first entry is NaN. *)
Lemma dropna_no_nan (s : Series) :
  Forall (fun dv => is_nan (snd dv) = false) (dropna s).
Proof.
  apply Forall_forall. intros x I. apply filter_In in I.
  destruct I as [_ H]. now apply negb_true_iff in H.
Qed.

Lemma dropna_length (s : Series) : (List.length (dropna s) <= List.length s)%nat.
Proof.
  unfold dropna. induction s as [|x t IH]; cbn; [lia|].
  destruct (negb (is_nan (snd x))); cbn; lia.
Qed.

Lemma dropna_incl (s : Series) : incl (dropna s) s.
Proof. intros x I. now apply filter_In in I. Qed.

Lemma returns_column_bound (df : DataFrame) :
  (List.length (dropna (combine (map date df)
                          (map times100 (pct_change (map close df)))))
   <= List.length df - 1)%nat.
Proof.
  destruct df as [|r0 rest]; [cbn; lia|].
  cbn [map pct_change combine times100]. unfold dropna. cbn [filter snd is_nan negb].
  fold (dropna (combine (map date rest)
                  (map times100 (pct_change_from (close r0) (map close rest))))).
  etransitivity; [apply dropna_length|].
  rewrite length_combine, !length_map. cbn [List.length]. lia.
Qed.

(** No business day lies between a business day and the next one, nor
    between a day and the business day it rolls forward to. *)
Lemma next_bday_first (d x : Timestamp) :
  is_business_day d = true -> is_business_day x = true -> d < x -> next_bday d <= x.
Proof.
  unfold is_business_day, next_bday. intros Bd Bx L.
  apply Z.ltb_lt in Bd, Bx. pose proof (weekday_range d) as Rd.
  destruct (weekday d =? 4) eqn:E4; [apply Z.eqb_eq in E4|apply Z.eqb_neq in E4].
  - destruct (Z.eq_dec x (d + 1)) as [->|N1].
    { rewrite weekday_succ, E4 in Bx. cbn in Bx. lia. }
    destruct (Z.eq_dec x (d + 2)) as [->|N2].
    { rewrite weekday_succ, E4 in Bx. cbn in Bx. lia. }
    lia.
  - destruct (weekday d =? 5) eqn:E5; [apply Z.eqb_eq in E5; lia|lia].
Qed.

Lemma roll_forward_first (d x : Timestamp) :
  is_business_day x = true -> d <= x -> roll_forward d <= x.
Proof.
  unfold is_business_day, roll_forward. intros Bx L. apply Z.ltb_lt in Bx.
  destruct (weekday d =? 5) eqn:E5; [apply Z.eqb_eq in E5|].
  - destruct (Z.eq_dec x d) as [->|N0]; [lia|].
    destruct (Z.eq_dec x (d + 1)) as [->|N1]; [|lia].
    rewrite weekday_succ, E5 in Bx. cbn in Bx. lia.
  - destruct (weekday d =? 6) eqn:E6; [apply Z.eqb_eq in E6|lia].
    destruct (Z.eq_dec x d) as [->|N0]; lia.
Qed.

Lemma bdays_from_complete (n : nat) (d x y : Timestamp) :
  is_business_day d = true -> is_business_day x = true ->
  d <= x -> In y (bdays_from d n) -> x <= y -> In x (bdays_from d n).
Proof.
  revert d. induction n as [|n IH]; intros d Bd Bx L Iy Lxy; [destruct Iy|].
  cbn [bdays_from] in *. destruct (Z.eq_dec x d) as [->|N]; [now left|right].
  destruct Iy as [->|Iy]; [lia|].
  apply IH; try assumption.
  - now apply next_bday_business.
  - apply next_bday_first; [assumption..|lia].
Qed.

(** A range of business days leaves out no business day between its
    start and its last date. *)
Lemma bdate_range_complete (start : Timestamp) (n : nat) (x y : Timestamp) :
  is_business_day x = true -> start <= x ->
  In y (bdate_range start n) -> x <= y -> In x (bdate_range start n).
Proof.
  intros Bx L Iy Lxy. unfold bdate_range in *.
  apply (bdays_from_complete n (roll_forward start) x y); try assumption.
  - apply roll_forward_business.
  - now apply roll_forward_first.
Qed.

(** Files of a directory: what is written can be read, and writing one
    name leaves the others alone. *)
Lemma file_content_written (V : Type) (k : string) (v : V) (d : dict V) :
  file_content k (dict_set k v d) = Some v.
Proof.
  unfold file_content. induction d as [|[k' v'] t IH]; cbn [dict_set find fst].
  - now rewrite String.eqb_refl.
  - destruct (String.eqb_spec k k') as [->|Hne]; cbn [find fst].
    + now rewrite String.eqb_refl.
    + destruct (String.eqb_spec k' k) as [E|_]; [congruence|exact IH].
Qed.

Lemma file_content_other (V : Type) (k n : string) (v : V) (d : dict V) :
  n <> k -> file_content n (dict_set k v d) = file_content n d.
Proof.
  intros N. unfold file_content.
  induction d as [|[k' v'] t IH]; cbn [dict_set find fst].
  - destruct (String.eqb_spec k n) as [E|_]; [congruence|reflexivity].
  - destruct (String.eqb_spec k k') as [->|Hne]; cbn [find fst].
    + destruct (String.eqb_spec k' n) as [E|_]; [congruence|reflexivity].
    + destruct (String.eqb_spec k' n); [reflexivity|exact IH].
Qed.

Lemma keys_dict_set_present (V : Type) (k : string) (v : V) (d : dict V) :
  In k (keys d) -> keys (dict_set k v d) = keys d.
Proof.
  induction d as [|[k' v'] t IH]; cbn [dict_set keys map fst In]; [intros []|].
  intros I. destruct (String.eqb_spec k k') as [->|Hne]; cbn [map fst]; [reflexivity|].
  f_equal. apply IH. destruct I as [E|I]; [congruence|exact I].
Qed.

Lemma dict_set_twice (V : Type) (k : string) (v1 v2 : V) (d : dict V) :
  dict_set k v2 (dict_set k v1 d) = dict_set k v2 d.
Proof.
  induction d as [|[k' v'] t IH]; cbn [dict_set].
  - now rewrite String.eqb_refl.
  - destruct (String.eqb_spec k k') as [->|Hne]; cbn [dict_set].
    + now rewrite String.eqb_refl.
    + destruct (String.eqb_spec k k'); [contradiction|]. now rewrite IH.
Qed.

(** The text of a timestamp after [replace(":", "-")] holds no colon. *)
Lemma replace_char_no_colon (s : string) :
  has_colon (replace_char ":" "-" s) = false.
Proof.
  unfold has_colon. induction s as [|c s IH]; [reflexivity|].
  cbn [replace_char list_ascii_of_string existsb]. rewrite IH, orb_false_r.
  destruct (Ascii.eqb c ":") eqn:E; [reflexivity|exact E].
Qed.

Lemma concat_length_uniform (A : Type) (c : nat) (rows : list (list A)) :
  Forall (fun row => List.length row = c) rows ->
  List.length (List.concat rows) = (List.length rows * c)%nat.
Proof.
  induction 1 as [|row t Hr _ IH]; [reflexivity|].
  cbn [List.concat List.length]. rewrite length_app, IH, Hr. lia.
Qed.

(** In a directory without repeated names, the file of a path is found
    wherever it stands in the listing. *)
Lemma find_by_path (V : Type) (pre n : string) (b : V) (d : dict V) :
  NoDup (keys d) -> In (n, b) d ->
  find (fun nb => String.eqb (pre ++ fst nb) (pre ++ n)) d = Some (n, b).
Proof.
  induction d as [|[k v] t IH]; cbn [keys map fst find]; [intros _ []|].
  intros ND I. inversion ND as [|? ? Nk Nt]; subst.
  destruct (String.eqb_spec (pre ++ k) (pre ++ n)) as [E|Hne].
  - apply append_inj_r in E. subst k. destruct I as [E|I]; [congruence|].
    exfalso. apply Nk. change n with (fst (n, b)). now apply in_map.
  - destruct I as [E|I]; [injection E as -> ->; congruence|]. now apply IH.
Qed.

Lemma glob_permuted (dir pat : string) (l l' : list string) :
  Permutation l l' -> Permutation (glob dir pat l) (glob dir pat l').
Proof.
  intros P. unfold glob. apply Permutation_map.
  induction P as [|x l l' P IH|x y l|l l' l'' P1 IH1 P2 IH2]; cbn [filter].
  - constructor.
  - destruct (glob_match pat x); [now constructor|exact IH].
  - destruct (glob_match pat x), (glob_match pat y); try reflexivity. apply perm_swap.
  - now transitivity (filter (glob_match pat) l').
Qed.

(** The last of the sorted paths is the same for every order of the
    listing. *)
Lemma last_item_sorted_permuted (l l' : list string) :
  Permutation l l' ->
  last_item (sorted String.leb l) = last_item (sorted String.leb l').
Proof.
  intros P. destruct l as [|x t].
  - apply Permutation_nil in P. now subst.
  - assert (NE : x :: t <> []) by discriminate.
    assert (NE' : l' <> []).
    { intros ->. apply Permutation_sym, Permutation_nil in P. discriminate. }
    destruct (last_item_sorted _ String.leb String.leb_total string_leb_trans _ NE)
      as (m & -> & Im & Hm).
    destruct (last_item_sorted _ String.leb String.leb_total string_leb_trans _ NE')
      as (m' & -> & Im' & Hm').
    f_equal. apply string_leb_antisym.
    + apply Hm'. now apply (Permutation_in _ P).
    + apply Hm. now apply (Permutation_in _ (Permutation_sym P)).
Qed.

End MethodFacts.

(** *** More on the methods *)

Module GarchMore.
Import Calendar Py Pandas Garch Caller.
Import CalendarFacts CivilFacts FormatFacts PyFacts PandasFacts GarchFacts MethodFacts.
Local Open Scope Z_scope.

Section Methods.

Variable Repo : Type.
Variable get_daily : string -> result DataFrame.
Variable insert_table : Repo -> string -> DataFrame -> result Repo.
Variable read_table : Repo -> string -> Z -> result DataFrame.
Variable arch_model_fit : Series -> Z -> Z -> result ARCHModelResult.
Variable Blob : Type.
Variable joblib_dump : ARCHModelResult -> Blob.
Variable joblib_load : Blob -> option ARCHModelResult.

Local Abbreviation World := (World Repo Blob).
Local Abbreviation wrangle_data := (@wrangle_data Repo get_daily insert_table read_table Blob).
Local Abbreviation fit := (@fit Repo arch_model_fit Blob).
Local Abbreviation predict_volatility := (@predict_volatility Repo Blob).
Local Abbreviation dump := (@dump Repo Blob joblib_dump).
Local Abbreviation load := (@load Repo Blob joblib_load).
Local Abbreviation refreshed := (@refreshed Repo get_daily insert_table Blob).
Local Abbreviation candidates := (@candidates Repo Blob).
Local Abbreviation perform :=
  (@perform Repo get_daily insert_table read_table arch_model_fit Blob joblib_dump joblib_load).
Local Abbreviation after_calls :=
  (@after_calls Repo get_daily insert_table read_table arch_model_fit Blob joblib_dump joblib_load).

(** The outcome of each method, case by case. *)
Lemma fit_eval (g : GarchModel) (w : World) (p q : Z) :
  fit p q (g, w)
  = match data g with
    | None => (Raise (AttributeError "'GarchModel' object has no attribute 'data'"), (g, w))
    | Some d =>
        match arch_model_fit d p q with
        | Ok m => (Ok tt, (set_bic (res_bic m) (set_aic (res_aic m) (set_model m g)), w))
        | Raise e => (Raise e, (g, w))
        end
    end.
Proof.
  unfold Garch.fit, bind, self, getattr, setattr, modify, lift, ret, raise.
  cbn [fst snd]. destruct (data g) as [d|]; [|reflexivity].
  destruct (arch_model_fit d p q); reflexivity.
Qed.

Lemma dump_eval (g : GarchModel) (w : World) (now : datetime) :
  dump now (g, w)
  = match model g with
    | None => (Raise no_model_error, (g, w))
    | Some m =>
        if has_slash (artifact_name g now)
        then (Raise (External "FileNotFoundError"), (g, w))
        else
          (Ok (os_path_join (model_directory g) (artifact_name g now)),
           (g, mkWorld (repo w) (dict_set (artifact_name g now) (joblib_dump m) (files w))))
    end.
Proof.
  unfold Garch.dump, bind, self, getattr, write_file, modify, ret, raise, no_model_error,
    artifact_name.
  cbn [fst snd]. destruct (model g); [|reflexivity]. cbn [fst snd].
  destruct (has_slash _); reflexivity.
Qed.

Lemma load_eval (g : GarchModel) (w : World) :
  load (g, w)
  = match last_item (sorted String.leb (candidates g w)) with
    | Ok path =>
        match find (fun nb => String.eqb (dir_prefix (model_directory g) ++ fst nb) path)
                   (files w) with
        | Some nb =>
            match joblib_load (snd nb) with
            | Some m => (Ok tt, (set_model m g, w))
            | None => (Raise (External "joblib.load"), (g, w))
            end
        | None => (Raise (External "FileNotFoundError"), (g, w))
        end
    | Raise _ =>
        (Raise (Exception ("No model trained for '" ++ ticker g ++ "'")), (g, w))
    end.
Proof.
  destruct (last_item (sorted String.leb (candidates g w))) as [path|e] eqn:E.
  - apply (load_some _ _ joblib_load g w _ E).
  - apply load_none. destruct (candidates g w) as [|c cs] eqn:Ec; [reflexivity|exfalso].
    assert (NE : candidates g w <> []) by (rewrite Ec; discriminate).
    destruct (last_item_sorted _ String.leb String.leb_total string_leb_trans _ NE)
      as (m & Hm & _).
    rewrite Ec in Hm. congruence.
Qed.

(** However [load] ends, only [model] may differ afterwards, and only
    when it returns. *)
Lemma load_cases (g : GarchModel) (w : World) :
  (exists m, load (g, w) = (Ok tt, (set_model m g, w)))
  \/ (exists e, load (g, w) = (Raise e, (g, w))).
Proof.
  rewrite load_eval.
  destruct (last_item _) as [path|e]; [|right; now eexists].
  destruct (find _ (files w)) as [nb|]; [|right; now eexists].
  destruct (joblib_load (snd nb)) as [m|]; [left; now exists m|right; now eexists].
Qed.

(** X1.  [fit] on an object whose [data] was never assigned, as before the
    first [wrangle_data], raises [AttributeError] for [data]; the estimator
    is not run and nothing changes. *)
Theorem fit_without_data (g : GarchModel) (w : World) (p q : Z) :
  data g = None ->
  fit p q (g, w)
  = (Raise (AttributeError "'GarchModel' object has no attribute 'data'"), (g, w)).
Proof. intros Hd. rewrite fit_eval. now rewrite Hd. Qed.

(** X2.  [fit] is all or nothing: when it returns, [model], [aic] and
    [bic] are those of the one result the estimator gave for the current
    series; when it raises, the object is as it was.  In both cases the
    series, the ticker, the directory, the repository and the files are
    untouched. *)
Theorem fit_all_or_nothing (g g' : GarchModel) (w w' : World) (p q : Z)
        (r : result unit) :
  fit p q (g, w) = (r, (g', w')) ->
  w' = w /\ data g' = data g /\ ticker g' = ticker g
  /\ model_directory g' = model_directory g /\ use_new_data g' = use_new_data g
  /\ ((r = Ok tt
       /\ exists d m, data g = Some d /\ arch_model_fit d p q = Ok m
                      /\ model g' = Some m
                      /\ aic g' = Some (res_aic m) /\ bic g' = Some (res_bic m))
      \/ (exists e, r = Raise e /\ g' = g)).
Proof.
  rewrite fit_eval. destruct (data g) as [d|] eqn:Hd.
  - destruct (arch_model_fit d p q) as [m|e] eqn:Hm; intros H; injection H as <- <- <-.
    + cbn [data ticker model_directory use_new_data model aic bic
             set_bic set_aic set_model]. rewrite ?Hd.
      repeat (split; [reflexivity|]). left. split; [reflexivity|].
      exists d, m. repeat split; assumption || reflexivity.
    + rewrite ?Hd. repeat (split; [reflexivity|]). right. now exists e.
  - intros H. injection H as <- <- <-. rewrite ?Hd.
    repeat (split; [reflexivity|]). right. eexists. split; reflexivity.
Qed.

(** Every outcome of [wrangle_data]. *)
Lemma wrangle_data_cases (g g' : GarchModel) (w w' : World) (n : Z) (r : result unit) :
  wrangle_data n (g, w) = (r, (g', w')) ->
  files w' = files w
  /\ (use_new_data g = false -> w' = w)
  /\ ((r = Ok tt
       /\ exists R, refreshed g w w'
                    /\ read_table (repo w') (ticker g) (n + 1) = Ok R
                    /\ g' = set_data
                              (dropna (combine (map date (sort_index R))
                                 (map times100 (pct_change (map close (sort_index R))))))
                              g)
      \/ (exists e, r = Raise e /\ g' = g)).
Proof.
  unfold Garch.wrangle_data, Garch.refreshed, bind, self, setattr, modify,
    repo_read_table, repo_insert_table, lift, ret.
  cbn [fst snd]. destruct (use_new_data g).
  - destruct (get_daily (ticker g)) as [nd|e]; cbn [fst snd].
    + destruct (insert_table (repo w) (ticker g) nd) as [rp|e] eqn:Ei; cbn [fst snd repo files].
      * destruct (read_table rp (ticker g) (n + 1)) as [R|e] eqn:Rd; cbn [fst snd];
          intros H; injection H as <- <- <-; cbn [files repo].
        -- split; [reflexivity|]. split; [discriminate|]. left. split; [reflexivity|].
           exists R. split; [exists nd, rp; repeat split; reflexivity || assumption|]. now split.
        -- split; [reflexivity|]. split; [discriminate|]. right. now exists e.
      * intros H; injection H as <- <- <-.
        split; [reflexivity|]. split; [reflexivity|]. right. now exists e.
    + intros H; injection H as <- <- <-.
      split; [reflexivity|]. split; [reflexivity|]. right. now exists e.
  - cbn [fst snd].
    destruct (read_table (repo w) (ticker g) (n + 1)) as [R|e] eqn:Rd; cbn [fst snd];
      intros H; injection H as <- <- <-.
    + split; [reflexivity|]. split; [reflexivity|]. left. split; [reflexivity|].
      exists R. now repeat split.
    + split; [reflexivity|]. split; [reflexivity|]. right. now exists e.
Qed.

(** X3.  However [wrangle_data] ends, it writes no file and leaves the
    ticker, the flags, [model], [aic] and [bic] as they were, so a model
    fitted earlier stays active over a new series; it touches the
    repository only when [use_new_data] is set; and when it raises, [data]
    too is as it was. *)
Theorem wrangle_data_frame (g g' : GarchModel) (w w' : World) (n : Z) (r : result unit) :
  wrangle_data n (g, w) = (r, (g', w')) ->
  files w' = files w
  /\ (use_new_data g = false -> w' = w)
  /\ model g' = model g /\ aic g' = aic g /\ bic g' = bic g
  /\ ticker g' = ticker g /\ model_directory g' = model_directory g
  /\ use_new_data g' = use_new_data g
  /\ (r <> Ok tt -> g' = g)
  /\ (r = Ok tt -> exists s, data g' = Some s).
Proof.
  intros H. destruct (wrangle_data_cases _ _ _ _ _ _ H) as (Hf & Hw & [(-> & R & _ & _ & ->)|(e & -> & ->)]).
  - repeat (split; [assumption || reflexivity|]). split; [intros N; now contradiction N|].
    intros _. eexists. reflexivity.
  - repeat (split; [assumption || reflexivity|]). discriminate.
Qed.

(** X4.  Whatever rows the repository returns, in whatever order and with
    whatever prices, the series that [wrangle_data] stores holds no NaN,
    has at most one entry less than there are rows (none for an empty or a
    one-row table), and is dated by dates of the table. *)
Theorem wrangle_data_clean (g : GarchModel) (w w' : World) (n : Z) (R : DataFrame) :
  refreshed g w w' ->
  read_table (repo w') (ticker g) (n + 1) = Ok R ->
  exists s,
    wrangle_data n (g, w) = (Ok tt, (set_data s g, w'))
    /\ Forall (fun dv => is_nan (snd dv) = false) s
    /\ (List.length s <= List.length R - 1)%nat
    /\ incl (map fst s) (map date R).
Proof.
  intros Rf Rd. eexists. split; [apply (wrangle_data_value _ _ _ _ _ _ _ _ _ _ Rf Rd)|].
  split; [apply dropna_no_nan|]. split.
  - rewrite <- (Permutation_length (sort_index_perm R)). apply returns_column_bound.
  - intros d I. apply in_map_iff in I. destruct I as ([d' v] & <- & I).
    apply dropna_incl, in_combine_l in I. cbn [fst].
    eapply Permutation_in; [apply Permutation_map, sort_index_perm|exact I].
Qed.

(** X5.  The stored series does not depend on the order in which the
    repository returns the rows, as long as no date occurs twice. *)
Theorem wrangle_data_any_order (g : GarchModel) (wa wa' wb wb' : World) (n1 n2 : Z)
        (R1 R2 : DataFrame) :
  refreshed g wa wa' -> read_table (repo wa') (ticker g) (n1 + 1) = Ok R1 ->
  refreshed g wb wb' -> read_table (repo wb') (ticker g) (n2 + 1) = Ok R2 ->
  NoDup (map date R1) -> Permutation R1 R2 ->
  fst (wrangle_data n1 (g, wa)) = Ok tt
  /\ fst (wrangle_data n2 (g, wb)) = Ok tt
  /\ data (fst (snd (wrangle_data n1 (g, wa))))
     = data (fst (snd (wrangle_data n2 (g, wb)))).
Proof.
  intros Rf1 Rd1 Rf2 Rd2 ND P.
  rewrite (wrangle_data_value _ _ _ _ _ _ _ _ _ _ Rf1 Rd1).
  rewrite (wrangle_data_value _ _ _ _ _ _ _ _ _ _ Rf2 Rd2).
  cbn [fst snd data set_data]. rewrite (sort_index_permuted _ _ ND P).
  repeat split; reflexivity.
Qed.

(** X6.  [predict_volatility] changes nothing, however it ends; and when
    it returns, the model is assigned, the horizon is at least 1, and the
    forecast is the list of the [horizon] business dates after the last
    observation, each with the fourth root of the forecast variance of its
    step. *)
Theorem predict_volatility_outcome (g : GarchModel) (w : World) (h : Z)
        (r : result (dict float)) (s' : State Repo Blob) :
  predict_volatility h (g, w) = (r, s') ->
  s' = (g, w)
  /\ forall d, r = Ok d ->
       exists m, model g = Some m /\ 1 <= h
                 /\ d = combine (map isoformat (forecast_dates m h)) (forecast_values m h)
                 /\ Z.of_nat (List.length d) = h.
Proof.
  rewrite predict_volatility_eval. intros H. injection H as <- <-.
  split; [reflexivity|]. intros d E.
  destruct (model g) as [m|]; [|discriminate]. exists m.
  destruct (h <? 1) eqn:Hh; [discriminate|]. apply Z.ltb_ge in Hh.
  destruct (in_bounds _); [|discriminate].
  destruct (forallb _ _); [|discriminate]. injection E as <-.
  repeat split; try reflexivity; try assumption.
  rewrite length_combine, length_map. unfold forecast_values, forecast_dates.
  rewrite length_map, length_seq, bdate_range_length. lia.
Qed.

(** X7.  The keys of every forecast that [predict_volatility] returns
    start with the first business day after the last observation, which is
    at most three days later, and leave out no business day up to the last
    key. *)
Theorem forecast_skips_no_business_day (g : GarchModel) (w : World)
        (m : ARCHModelResult) (h : Z) (d : dict float) (s' : State Repo Blob) :
  model g = Some m ->
  predict_volatility h (g, w) = (Ok d, s') ->
  keys d = map isoformat (forecast_dates m h)
  /\ (exists first,
        nth_error (forecast_dates m h) 0 = Some first
        /\ nth_error (keys d) 0 = Some (isoformat first)
        /\ is_business_day first = true
        /\ res_last_obs m < first <= res_last_obs m + 3
        /\ forall x, is_business_day x = true -> res_last_obs m < x -> first <= x)
  /\ (forall x y,
        is_business_day x = true -> res_last_obs m < x ->
        In y (forecast_dates m h) -> x <= y ->
        In x (forecast_dates m h) /\ In (isoformat x) (keys d)).
Proof.
  intros Hm E. rewrite predict_volatility_eval, Hm in E.
  destruct (h <? 1) eqn:Hh; [discriminate|]. apply Z.ltb_ge in Hh.
  destruct (in_bounds (res_last_obs m + 1)); [|discriminate].
  destruct (forallb in_bounds (forecast_dates m h)); [|discriminate].
  injection E as <- _.
  assert (Len : List.length (map isoformat (forecast_dates m h))
                = List.length (forecast_values m h)).
  { unfold forecast_values, forecast_dates.
    now rewrite !length_map, length_seq, bdate_range_length. }
  unfold keys. rewrite (combine_keys _ _ _ _ Len).
  split; [reflexivity|]. split.
  - exists (roll_forward (res_last_obs m + 1)).
    assert (N : nth_error (forecast_dates m h) 0 = Some (roll_forward (res_last_obs m + 1)))
      by (unfold forecast_dates; destruct (Z.to_nat h) eqn:Eh; [lia|reflexivity]).
    split; [exact N|]. split; [now rewrite nth_error_map, N|].
    split; [apply roll_forward_business|].
    pose proof (roll_forward_bounds (res_last_obs m + 1)).
    split; [lia|]. intros x Bx Lx. apply roll_forward_first; [exact Bx|lia].
  - intros x y Bx Lx Iy Lxy.
    assert (I : In x (forecast_dates m h))
      by (apply (bdate_range_complete _ _ x y); [assumption|lia|assumption..]).
    split; [exact I|now apply in_map].
Qed.

(** X8.  [__clean_prediction] formats frames of one row only: given two
    rows or more, of at least one column, it raises [ValueError], since
    it has one label per column and one value per cell. *)
Theorem clean_prediction_many_rows (St : Type) (s : St) (f : Frame)
        (first : Timestamp) (rest : list Timestamp) :
  f_index f = first :: rest -> rest <> [] ->
  List.length (f_values f) = List.length (f_index f) ->
  Forall (fun row => List.length row = f_columns f) (f_values f) ->
  (1 <= f_columns f)%nat ->
  in_bounds (first + 1) = true ->
  forallb in_bounds (bdate_range (first + 1) (f_columns f)) = true ->
  __clean_prediction f s
  = (Raise (ValueError "Length of values does not match length of index"), s).
Proof.
  intros Hi Hr Hl Hu Hc B1 B2.
  unfold __clean_prediction, bind, lift. rewrite Hi. unfold add_days. rewrite B1.
  unfold bdate_range_checked. rewrite B2. unfold series_to_dict, flatten.
  rewrite !length_map, bdate_range_length, (concat_length_uniform _ _ _ Hu), Hl, Hi.
  destruct rest as [|x t]; [contradiction|]. cbn [List.length].
  destruct (Nat.eqb_spec ((S (S (List.length t))) * f_columns f) (f_columns f)) as [E|_];
    [nia|reflexivity].
Qed.

(** X9.  For a plain ticker and a model directory without magic
    characters, [dump] of an assigned model returns the path of the
    directory joined with [<timestamp>_<ticker>.pkl], where the timestamp
    holds no colon; the file of that name then holds the serialized model,
    every other file is as it was, the new path is one that [load]
    matches, and the object and the repository are untouched. *)
Theorem dump_writes_one_file (g : GarchModel) (w : World) (now : datetime)
        (m : ARCHModelResult) :
  model g = Some m ->
  plain_ticker (ticker g) = true ->
  plain_directory (model_directory g) = true ->
  exists w',
    dump now (g, w)
    = (Ok (dir_prefix (model_directory g) ++ artifact_name g now)%string, (g, w'))
    /\ has_colon (replace_char ":" "-" (isoformat_datetime now)) = false
    /\ repo w' = repo w
    /\ file_content (artifact_name g now) (files w') = Some (joblib_dump m)
    /\ (forall n, n <> artifact_name g now ->
                  file_content n (files w') = file_content n (files w))
    /\ (forall n, In n (keys (files w')) <->
                  n = artifact_name g now \/ In n (keys (files w)))
    /\ In (dir_prefix (model_directory g) ++ artifact_name g now)%string
          (candidates g w').
Proof.
  intros Hm Hp _. eexists.
  rewrite dump_eval, Hm, (GarchSpec.artifact_name_no_slash g now Hp),
    GarchSpec.artifact_path.
  split; [reflexivity|]. cbn [repo files].
  split; [apply replace_char_no_colon|]. split; [reflexivity|].
  split; [apply file_content_written|].
  split; [intros n N; now apply file_content_other|].
  split; [intros n; apply In_keys_dict_set|].
  apply In_glob. eexists. split; [reflexivity|]. split.
  - cbn [files]. apply In_keys_dict_set. now left.
  - apply GarchSpec.artifact_name_matches.
Qed.

(** X10.  A second [dump] at the same reading of the clock, by an object
    of the same plain ticker and the same model directory, returns the
    same path and replaces the file of the first: the directory has the
    same names, and that file holds the second model. *)
Theorem dump_same_timestamp_overwrites (g1 g2 : GarchModel) (w : World)
        (now : datetime) (m1 m2 : ARCHModelResult) :
  model g1 = Some m1 -> model g2 = Some m2 ->
  ticker g2 = ticker g1 -> model_directory g2 = model_directory g1 ->
  plain_ticker (ticker g1) = true ->
  exists p w1 w2,
    dump now (g1, w) = (Ok p, (g1, w1))
    /\ dump now (g2, w1) = (Ok p, (g2, w2))
    /\ keys (files w2) = keys (files w1)
    /\ file_content (artifact_name g1 now) (files w2) = Some (joblib_dump m2)
    /\ files w2 = dict_set (artifact_name g1 now) (joblib_dump m2) (files w).
Proof.
  intros H1 H2 Ht Hd Hp. do 3 eexists.
  assert (E : artifact_name g2 now = artifact_name g1 now)
    by (unfold artifact_name; now rewrite Ht).
  rewrite !dump_eval, H1, H2, E, Hd, (GarchSpec.artifact_name_no_slash g1 now Hp).
  split; [reflexivity|]. split; [reflexivity|].
  cbn [files]. split; [|split].
  - apply keys_dict_set_present. apply In_keys_dict_set. now left.
  - apply file_content_written.
  - apply dict_set_twice.
Qed.

(** X12.  [load] again, right after a [load] that returned, returns as
    well and changes nothing. *)
Theorem load_twice (g g1 : GarchModel) (w w1 : World) :
  load (g, w) = (Ok tt, (g1, w1)) ->
  load (g1, w1) = (Ok tt, (g1, w1)).
Proof.
  rewrite load_eval.
  destruct (last_item (sorted String.leb (candidates g w))) as [path|e] eqn:E;
    [|discriminate].
  destruct (find _ (files w)) as [nb|] eqn:F; [|discriminate].
  destruct (joblib_load (snd nb)) as [m|] eqn:J; [|discriminate].
  intros H. injection H as <- <-.
  rewrite load_eval.
  change (candidates (set_model m g) w) with (candidates g w).
  rewrite E. cbn [model_directory set_model]. rewrite F, J. reflexivity.
Qed.

(** X13.  In a directory where no name occurs twice, what [load] does is
    the same for every order in which the directory lists its files. *)
Theorem load_any_listing_order (g : GarchModel) (w w2 : World) :
  NoDup (keys (files w)) -> Permutation (files w) (files w2) ->
  fst (load (g, w)) = fst (load (g, w2))
  /\ fst (snd (load (g, w))) = fst (snd (load (g, w2))).
Proof.
  intros ND P. rewrite !load_eval.
  assert (Pk : Permutation (keys (files w)) (keys (files w2)))
    by (apply Permutation_map, P).
  assert (ND2 : NoDup (keys (files w2))) by (eapply Permutation_NoDup; eassumption).
  unfold Garch.candidates.
  rewrite (last_item_sorted_permuted _ _
             (glob_permuted (model_directory g) (pattern g) _ _ Pk)).
  destruct (last_item (sorted String.leb
              (glob (model_directory g) (pattern g) (keys (files w2)))))
    as [path|e] eqn:E; [|split; reflexivity].
  assert (Ip : In path (glob (model_directory g) (pattern g) (keys (files w2)))).
  { destruct (glob (model_directory g) (pattern g) (keys (files w2))) as [|c cs] eqn:Eg;
      [discriminate|].
    assert (NE : c :: cs <> []) by discriminate.
    destruct (last_item_sorted _ String.leb String.leb_total string_leb_trans _ NE)
      as (m & Hm & Im & _).
    congruence. }
  apply In_glob in Ip. destruct Ip as (n & -> & In2 & _).
  destruct (find_candidate Blob (model_directory g) (files w2) n In2) as (b & _ & Ib2).
  assert (Ib : In (n, b) (files w)) by (apply (Permutation_in _ (Permutation_sym P)), Ib2).
  rewrite (find_by_path _ _ n b (files w) ND Ib).
  rewrite (find_by_path _ _ n b (files w2) ND2 Ib2).
  cbn [snd]. destruct (joblib_load b); split; reflexivity.
Qed.

(** Each call keeps the configuration; it keeps the files unless it is a
    [dump], the repository unless it is a [wrangle_data] with
    [use_new_data], and the agreement of [aic] and [bic] with [model]
    unless it is a [load]. *)
Lemma perform_frame (c : call) (g : GarchModel) (w : World) :
  let s' := snd (perform c (g, w)) in
  ticker (fst s') = ticker g
  /\ model_directory (fst s') = model_directory g
  /\ use_new_data (fst s') = use_new_data g
  /\ (is_dump c = false -> files (snd s') = files w)
  /\ (is_wrangle c && use_new_data g = false -> repo (snd s') = repo w)
  /\ (is_load c = false -> metrics_of_model g -> metrics_of_model (fst s')).
Proof.
  destruct c as [n|p q|h|now|]; cbn [perform is_dump is_wrangle is_load andb]; cbv zeta.
  - destruct (Garch.wrangle_data get_daily insert_table read_table n (g, w))
      as [r [g' w']] eqn:E.
    destruct (wrangle_data_cases _ _ _ _ _ _ E)
      as (Hf & Hw & [(-> & R & _ & _ & ->)|(e & -> & ->)]); cbn [fst snd];
      repeat split; try reflexivity; try (intros; assumption);
      intros U; now rewrite (Hw U).
  - rewrite fit_eval. destruct (data g) as [d|]; cbn [fst snd];
      [destruct (arch_model_fit d p q) as [m|e]; cbn [fst snd]|];
      repeat split; try reflexivity; try (intros; assumption).
  - unfold bind. rewrite predict_volatility_eval.
    destruct (match model g with Some _ => _ | None => _ end); cbn [fst snd ret];
      repeat split; try reflexivity; try (intros; assumption).
  - unfold bind. rewrite dump_eval.
    destruct (model g); [destruct (has_slash (artifact_name g now))|];
      cbn [fst snd ret repo];
      repeat split; try reflexivity; try (intros; assumption); discriminate.
  - destruct (load_cases g w) as [(m & ->)|(e & ->)]; cbn [fst snd];
      repeat split; try reflexivity; try (intros; assumption); discriminate.
Qed.

(** X14.  As long as the caller never calls [load], after any calls of
    [wrangle_data], [fit], [predict_volatility] and [dump] on a new
    object, whether they return or raise, [aic] and [bic] are unassigned
    together with [model] or are those of the active model. *)
Theorem metrics_follow_model (dir ticker : string) (use_new : bool) (w : World)
        (cs : list call) :
  forallb (fun c => negb (is_load c)) cs = true ->
  metrics_of_model (fst (after_calls cs (__init__ dir ticker use_new, w))).
Proof.
  assert (M0 : metrics_of_model (__init__ dir ticker use_new))
    by (split; reflexivity).
  revert M0. generalize (__init__ dir ticker use_new) as g. revert w.
  induction cs as [|c cs IH]; intros w g M0 H; [exact M0|].
  cbn [forallb] in H. apply andb_prop in H. destruct H as [Hc Hcs].
  apply negb_true_iff in Hc. cbn [Caller.after_calls].
  destruct (snd (perform c (g, w))) as [g' w'] eqn:E.
  apply IH; [|exact Hcs].
  pose proof (perform_frame c g w) as F. cbv zeta in F. rewrite E in F.
  cbn [fst] in F. now apply F.
Qed.

(** X15.  Whatever the caller calls, the ticker, the flag and the
    directory of the object never change; the files of the directory
    change only through [dump]; and the repository changes only through
    [wrangle_data] on an object made with [use_new_data]. *)
Theorem calls_frame (g : GarchModel) (w : World) (cs : list call) :
  let s' := after_calls cs (g, w) in
  ticker (fst s') = ticker g
  /\ model_directory (fst s') = model_directory g
  /\ use_new_data (fst s') = use_new_data g
  /\ (forallb (fun c => negb (is_dump c)) cs = true -> files (snd s') = files w)
  /\ (forallb (fun c => negb (is_wrangle c)) cs = true \/ use_new_data g = false ->
      repo (snd s') = repo w).
Proof.
  cbv zeta. revert g w. induction cs as [|c cs IH]; intros g w.
  - cbn. repeat split; reflexivity.
  - cbn [Caller.after_calls forallb].
    pose proof (perform_frame c g w) as F. cbv zeta in F.
    destruct (snd (perform c (g, w))) as [g' w'] eqn:E. cbn [fst snd] in F.
    destruct F as (Ft & Fd & Fu & Ff & Fr & _).
    destruct (IH g' w') as (It & Id & Iu & If & Ir).
    split; [congruence|]. split; [congruence|]. split; [congruence|]. split.
    + intros H. apply andb_prop in H. destruct H as [Hc Hcs].
      apply negb_true_iff in Hc. rewrite (If Hcs). now apply Ff.
    + intros H. rewrite Ir.
      * apply Fr. destruct H as [H|H].
        -- apply andb_prop in H. destruct H as [Hc _].
           apply negb_true_iff in Hc. now rewrite Hc.
        -- rewrite H. apply andb_false_r.
      * destruct H as [H|H]; [left|right; congruence].
        apply andb_prop in H. now destruct H.
Qed.

End Methods.

End GarchMore.

(** *** More runs on the small configuration *)

Module MoreExamples.
Import Calendar Py Pandas Garch Caller Demo Scenarios.
Import GarchFacts MethodFacts GarchSpec GarchMore.
Local Open Scope Z_scope.

Local Abbreviation wrangle_data :=
  (@wrangle_data Repo get_daily insert_table read_table Blob).
Local Abbreviation fit := (@fit Repo arch_model_fit Blob).
Local Abbreviation predict_volatility := (@predict_volatility Repo Blob).
Local Abbreviation dump := (@dump Repo Blob joblib_dump).
Local Abbreviation load := (@load Repo Blob joblib_load).
Local Abbreviation candidates := (@candidates Repo Blob).
Local Abbreviation after_calls :=
  (@after_calls Repo get_daily insert_table read_table arch_model_fit Blob
     joblib_dump joblib_load).

Lemma fit_without_data_witness :
  fit 1 1 (zn, empty_dir)
  = (Raise (AttributeError "'GarchModel' object has no attribute 'data'"), (zn, empty_dir)).
Proof.
  apply (@fit_without_data Repo arch_model_fit Blob zn empty_dir 1 1). reflexivity.
Defined.

Lemma fit_all_or_nothing_witness :
  exists g',
    fit 1 1 (set_data [] zn, empty_dir) = (Ok tt, (g', empty_dir))
    /\ model g' = Some zn_model
    /\ aic g' = Some (res_aic zn_model) /\ bic g' = Some (res_bic zn_model).
Proof.
  set (g' := set_bic (res_bic zn_model) (set_aic (res_aic zn_model)
               (set_model zn_model (set_data [] zn)))).
  assert (H : fit 1 1 (set_data [] zn, empty_dir) = (Ok tt, (g', empty_dir)))
    by reflexivity.
  destruct (@fit_all_or_nothing Repo arch_model_fit Blob
              (set_data [] zn) g' empty_dir empty_dir 1 1 (Ok tt) H)
    as (_ & _ & _ & _ & _ & [(_ & d & m & _ & Hm & Hmod & Ha & Hb)|(e & He & _)]);
    [|discriminate].
  injection Hm as <-. exists g'. repeat split; assumption.
Defined.

Lemma wrangle_data_frame_witness :
  exists g',
    wrangle_data 2 (zn_fitted, mixed_dir) = (Ok tt, (g', mixed_dir))
    /\ model g' = Some zn_model.
Proof.
  set (g' := fst (snd (wrangle_data 2 (zn_fitted, mixed_dir)))).
  assert (H : wrangle_data 2 (zn_fitted, mixed_dir) = (Ok tt, (g', mixed_dir)))
    by reflexivity.
  destruct (@wrangle_data_frame Repo get_daily insert_table read_table Blob
              zn_fitted g' mixed_dir mixed_dir 2 (Ok tt) H)
    as (_ & _ & Hm & _).
  exists g'. split; [exact H|exact Hm].
Defined.

Lemma wrangle_data_clean_witness :
  exists s,
    wrangle_data 3 (zn, gap_world) = (Ok tt, (set_data s zn, gap_world))
    /\ Forall (fun dv => is_nan (snd dv) = false) s
    /\ (List.length s <= 3)%nat.
Proof.
  destruct (@wrangle_data_clean Repo get_daily insert_table read_table Blob
              zn gap_world gap_world 3 gap_prices) as (s & H & Hn & Hl & _).
  - reflexivity.
  - reflexivity.
  - exists s. repeat split; assumption.
Defined.

Lemma wrangle_data_any_order_witness :
  data (fst (snd (wrangle_data 2 (zn, in_order))))
  = data (fst (snd (wrangle_data 2 (zn, in_reverse)))).
Proof.
  apply (@wrangle_data_any_order Repo get_daily insert_table read_table Blob
           zn in_order in_order in_reverse in_reverse 2 2 ascending descending).
  - reflexivity.
  - reflexivity.
  - reflexivity.
  - reflexivity.
  - repeat constructor; cbn; intuition discriminate.
  - unfold ascending, descending.
    eapply perm_trans; [apply perm_swap|].
    eapply perm_trans; [apply perm_skip, perm_swap|]. apply perm_swap.
Defined.

Lemma predict_volatility_outcome_witness :
  exists d,
    predict_volatility 5 (zn_fitted, empty_dir) = (Ok d, (zn_fitted, empty_dir))
    /\ Z.of_nat (List.length d) = 5.
Proof.
  set (d := combine (map isoformat (forecast_dates zn_model 5)) (forecast_values zn_model 5)).
  assert (H : predict_volatility 5 (zn_fitted, empty_dir) = (Ok d, (zn_fitted, empty_dir)))
    by (vm_compute; reflexivity).
  destruct (@predict_volatility_outcome Repo Blob zn_fitted empty_dir 5 (Ok d)
              (zn_fitted, empty_dir) H) as (_ & Hd).
  destruct (Hd d eq_refl) as (m & _ & _ & _ & Hl).
  exists d. split; [exact H|exact Hl].
Defined.

Lemma forecast_skips_no_business_day_witness :
  exists d first,
    predict_volatility 5 (zn_fitted, empty_dir) = (Ok d, (zn_fitted, empty_dir))
    /\ nth_error (keys d) 0 = Some (isoformat first)
    /\ is_business_day first = true
    /\ 19362 < first <= 19362 + 3.
Proof.
  set (d := combine (map isoformat (forecast_dates zn_model 5)) (forecast_values zn_model 5)).
  assert (H : predict_volatility 5 (zn_fitted, empty_dir) = (Ok d, (zn_fitted, empty_dir)))
    by (vm_compute; reflexivity).
  destruct (@forecast_skips_no_business_day Repo Blob zn_fitted empty_dir zn_model 5 d
              (zn_fitted, empty_dir) eq_refl H)
    as (_ & (first & _ & Hk & Hb & Hr & _) & _).
  exists d, first. repeat split; try assumption; apply Hr.
Defined.

Lemma clean_prediction_many_rows_witness :
  __clean_prediction two_rows tt
  = (Raise (ValueError "Length of values does not match length of index"), tt).
Proof.
  apply (@clean_prediction_many_rows unit tt two_rows 19361 [19362]).
  - reflexivity.
  - discriminate.
  - reflexivity.
  - repeat constructor.
  - cbn. lia.
  - reflexivity.
  - reflexivity.
Defined.

Lemma dump_writes_one_file_witness :
  exists w',
    dump noon (zn_fitted, mixed_dir)
    = (Ok ("models/" ++ artifact_name zn_fitted noon)%string, (zn_fitted, w'))
    /\ file_content (artifact_name zn_fitted noon) (files w') = Some zn_model.
Proof.
  destruct (@dump_writes_one_file Repo Blob joblib_dump zn_fitted mixed_dir noon
              zn_model) as (w' & H & _ & _ & Hc & _).
  - reflexivity.
  - reflexivity.
  - reflexivity.
  - exists w'. split; [exact H|exact Hc].
Defined.

Lemma dump_same_timestamp_overwrites_witness :
  exists p w1 w2,
    dump noon (zn_fitted, empty_dir) = (Ok p, (zn_fitted, w1))
    /\ dump noon (set_model zn_old_model zn, w1)
       = (Ok p, (set_model zn_old_model zn, w2))
    /\ keys (files w2) = keys (files w1).
Proof.
  destruct (@dump_same_timestamp_overwrites Repo Blob joblib_dump
              zn_fitted (set_model zn_old_model zn) empty_dir noon zn_model zn_old_model)
    as (p & w1 & w2 & H1 & H2 & Hk & _).
  - reflexivity.
  - reflexivity.
  - reflexivity.
  - reflexivity.
  - reflexivity.
  - exists p, w1, w2. repeat split; assumption.
Defined.

Lemma load_twice_witness :
  load (set_model amzn_model zn, mixed_dir)
  = (Ok tt, (set_model amzn_model zn, mixed_dir)).
Proof.
  apply (@load_twice Repo Blob joblib_load zn (set_model amzn_model zn)
           mixed_dir mixed_dir).
  vm_compute. reflexivity.
Defined.

Lemma load_any_listing_order_witness :
  fst (load (zn, mixed_dir)) = fst (load (zn, mixed_dir_reversed))
  /\ fst (snd (load (zn, mixed_dir))) = fst (snd (load (zn, mixed_dir_reversed))).
Proof.
  apply (@load_any_listing_order Repo Blob joblib_load zn mixed_dir mixed_dir_reversed).
  - repeat constructor; cbn; intuition discriminate.
  - apply perm_swap.
Defined.

Lemma metrics_follow_model_witness :
  metrics_of_model (fst (after_calls calls (zn, empty_dir))).
Proof.
  apply (@metrics_follow_model Repo get_daily insert_table read_table arch_model_fit
           Blob joblib_dump joblib_load "models" "ZN" false empty_dir calls).
  reflexivity.
Defined.

Lemma calls_frame_witness :
  ticker (fst (after_calls calls (zn, empty_dir))) = "ZN"%string
  /\ repo (snd (after_calls calls (zn, empty_dir))) = prices.
Proof.
  destruct (@calls_frame Repo get_daily insert_table read_table arch_model_fit
              Blob joblib_dump joblib_load zn empty_dir calls)
    as (Ht & _ & _ & _ & Hr).
  split; [exact Ht|]. apply Hr. now right.
Defined.

End MoreExamples.
